(** * The ChatGPT function of EvaDB: [evadb/udfs/chatgpt.py]

    A shallow embedding of the [ChatGPT] class: [setup] validates and stores
    the model and the temperature; [forward] resolves the OpenAI key, reads
    the query, content and prompt columns of a data frame, and issues one
    chat-completion request per row through [completion_with_backoff].

    Python's effects are written out as a state-and-exception monad over a
    world that records, in order, every observable action of [forward]: reads
    of the configuration store and of [os.environ], calls of
    [openai.ChatCompletion.create], and calls of [time.sleep] made by the
    [retry] decorator. *)

From Stdlib Require Import ZArith Floats.SpecFloat.
From stdpp Require Import base option list strings gmap.

(** ** Python values and exceptions *)

(** The classes of exceptions the code meets.  [except Exception] catches
    every class but [NonException], which stands for the classes that derive
    from [BaseException] only ([KeyboardInterrupt], [SystemExit],
    [GeneratorExit]). *)
Inductive exc_class : Type :=
  | AssertionError
  | IndexError
  | AttributeError
  | KeyError
  | OtherException
  | NonException.

(** An exception object: its class and [str(e)], which is what [f"{e}"]
    formats. *)
Record py_exc : Type := PyExc {
  exc_cls : exc_class;
  exc_str : string;
}.

(** [isinstance(e, Exception)]. *)
Definition is_Exception (e : py_exc) : bool :=
  match exc_cls e with
  | NonException => false
  | _ => true
  end.

(** A Python number: [temperature] is annotated [float] and defaults to the
    [int] 0; it is only stored and passed on, never computed with. *)
Inductive py_number : Type :=
  | PyInt (n : Z)
  | PyFloat (f : spec_float).

(** ** The request and the response of the chat-completion API *)

Record Message : Type := Build_Message {
  role : string;
  content : string;
}.

(** The keyword arguments of [openai.ChatCompletion.create]. *)
Record RequestParams : Type := Build_RequestParams {
  model : string;
  temperature : py_number;
  messages : list Message;
}.

Record Choice : Type := Build_Choice {
  message : Message;
}.

Record Response : Type := Build_Response {
  choices : list Choice;
}.

(** What one call of [openai.ChatCompletion.create] does: it returns a
    response or raises. *)
Inductive Outcome : Type :=
  | Returns (r : Response)
  | Raises (e : py_exc).

(** ** The world *)

(** The observable actions, in the order they happen. *)
Inductive Event : Type :=
  | EvGetValue (category key : string)
  | EvEnvironGet (name : string)
  | EvCreate (kwargs : RequestParams)
  | EvSleep (seconds : Z).

(** What surrounds the function and is only read.  [get_value] stands for
    [ConfigurationManager().get_value], which is not part of this file: the
    string it returns is taken as given.  [environ] is [os.environ].  The
    remote service is any deterministic function of the number of calls
    already made and of the request, which covers mocks scripted by attempt
    (fail twice, then succeed). *)
Record Env : Type := Build_Env {
  get_value : string -> string -> string;
  environ : gmap string string;
  remote : nat -> RequestParams -> Outcome;
}.

(** The mutable part: the module attribute [openai.api_key] and the trace of
    events so far (most recent last). *)
Record World : Type := Build_World {
  api_key : string;
  trace : list Event;
}.

Definition is_create (ev : Event) : bool :=
  match ev with EvCreate _ => true | _ => false end.

(** The requests sent so far, oldest first. *)
Fixpoint created (t : list Event) : list RequestParams :=
  match t with
  | [] => []
  | EvCreate kw :: t' => kw :: created t'
  | _ :: t' => created t'
  end.

(** The delays slept so far, oldest first. *)
Fixpoint slept (t : list Event) : list Z :=
  match t with
  | [] => []
  | EvSleep d :: t' => d :: slept t'
  | _ :: t' => slept t'
  end.

(** ** The monad of Python computations *)

Inductive Result (A : Type) : Type :=
  | Ok (a : A)
  | Raised (e : py_exc).
Arguments Ok {A} a.
Arguments Raised {A} e.

Definition Py (A : Type) : Type := World -> Result A * World.

Definition ret {A} (a : A) : Py A := fun w => (Ok a, w).

Definition raise {A} (e : py_exc) : Py A := fun w => (Raised e, w).

Definition bind {A B} (c : Py A) (k : A -> Py B) : Py B :=
  fun w =>
    match c w with
    | (Ok a, w') => k a w'
    | (Raised e, w') => (Raised e, w')
    end.

Notation "'do' x <- c ; k" := (bind c (fun x => k))
  (at level 10, x name, c at level 100, k at level 200).
Notation "'do' ' p <- c ; k" := (bind c (fun x => let 'p := x in k))
  (at level 10, p pattern, c at level 100, k at level 200).
Notation "'run' c ; k" := (bind c (fun _ => k))
  (at level 10, c at level 100, k at level 200).

(** The world once one more event has happened. *)
Definition log (w : World) (ev : Event) : World :=
  {| api_key := api_key w; trace := trace w ++ [ev] |}.

Definition emit (ev : Event) : Py unit :=
  fun w => (Ok tt, log w ev).

Definition set_api_key (k : string) : Py unit :=
  fun w => (Ok tt, {| api_key := k; trace := trace w |}).

Definition get_api_key : Py string :=
  fun w => (Ok (api_key w), w).

(** [assert cond, msg]. *)
Definition py_assert (cond : bool) (msg : string) : Py unit :=
  if cond then ret tt else raise (PyExc AssertionError msg).

(** ** The adapter and [setup] *)

Definition _VALID_CHAT_COMPLETION_MODEL : list string :=
  [ "gpt-4";
    "gpt-4-0314";
    "gpt-4-32k";
    "gpt-4-32k-0314";
    "gpt-3.5-turbo";
    "gpt-3.5-turbo-0301" ].

(** The instance attributes of a [ChatGPT] object; [None] is an attribute
    that was never assigned. *)
Record ChatGPT : Type := Build_ChatGPT {
  self_model : option string;
  self_temperature : option py_number;
}.

(** A freshly built object: [setup] has not run. *)
Definition unconfigured : ChatGPT :=
  {| self_model := None; self_temperature := None |}.

Definition default_model : string := "gpt-3.5-turbo".
Definition default_temperature : py_number := PyInt 0.

(** [model in _VALID_CHAT_COMPLETION_MODEL]. *)
Definition model_in_valid (m : string) : bool :=
  bool_decide (m ∈ _VALID_CHAT_COMPLETION_MODEL).

(** [setup(self, model="gpt-3.5-turbo", temperature=0)]: an argument that the
    caller leaves out is [None] here and takes its default.  The result pairs
    what the call returns or raises with the object afterwards. *)
Definition setup (self : ChatGPT)
    (model_arg : option string) (temperature_arg : option py_number)
    : Result unit * ChatGPT :=
  let model := default default_model model_arg in
  let temperature := default default_temperature temperature_arg in
  if model_in_valid model then
    let self1 := {| self_model := Some model;
                    self_temperature := self_temperature self |} in
    let self2 := {| self_model := self_model self1;
                    self_temperature := Some temperature |} in
    (Ok tt, self2)
  else
    (Raised (PyExc AssertionError ("Unsupported ChatGPT " +:+ model)), self).

(** ** Data frames *)

(** A pandas [Series] of strings (the declared column type is
    [NdArrayType.STR]) and a [DataFrame] as its labelled columns, in order. *)
Definition Series : Type := list string.
Definition DataFrame : Type := list (string * Series).

(** [len(df.columns)]. *)
Definition len_columns (df : DataFrame) : nat := length df.

(** [len(df)]: the number of rows. *)
Definition len_rows (df : DataFrame) : nat :=
  match df with
  | [] => 0
  | (_, s) :: _ => length s
  end.

(** Every column of a data frame has as many entries as the frame has
    rows. *)
Definition well_formed (df : DataFrame) : bool :=
  forallb (fun c => Nat.eqb (length c.2) (len_rows df)) df.

Definition index_error : py_exc :=
  PyExc IndexError "index 0 is out of bounds for axis 0 with size 0".

(** [df.columns[j]]: the label of column [j]; [IndexError] out of range. *)
Definition columns_getitem (df : DataFrame) (j : nat) : Py string :=
  match df !! j with
  | Some c => ret c.1
  | None => raise index_error
  end.

(** [df[label]] for a label of the frame: the column carrying it (the first
    one here; pandas returns a sub-frame when a label is repeated, which can
    only happen with two columns or more, where [forward] discards this
    value). *)
Fixpoint getitem (df : DataFrame) (label : string) : Py Series :=
  match df with
  | [] => raise (PyExc KeyError label)
  | (l, s) :: df' => if String.eqb l label then ret s else getitem df' label
  end.

(** [df.iloc[:, j]]. *)
Definition iloc_column (df : DataFrame) (j : nat) : Py Series :=
  match df !! j with
  | Some c => ret c.2
  | None => raise index_error
  end.

(** [df.iloc[i, j]]: a single cell; [IndexError] when the row or the column
    does not exist. *)
Definition iloc_cell (df : DataFrame) (i j : nat) : Py string :=
  match df !! j with
  | Some c =>
      match c.2 !! i with
      | Some v => ret v
      | None => raise index_error
      end
  | None => raise index_error
  end.

(** [pd.DataFrame({"response": results})]. *)
Definition response_frame (results : list string) : DataFrame :=
  [("response", results)].

(** ** The remote call *)

(** [openai.ChatCompletion.create] applied to the keyword arguments
    [kwargs]: the request is recorded, and the service answers according to
    how many requests came before this one. *)
Definition create (env : Env) (kwargs : RequestParams) : Py Response :=
  fun w =>
    let n := length (created (trace w)) in
    let w' := log w (EvCreate kwargs) in
    match remote env n kwargs with
    | Returns r => (Ok r, w')
    | Raises e => (Raised e, w')
    end.

(** [time.sleep(seconds)]. *)
Definition sleep (seconds : Z) : Py unit := emit (EvSleep seconds).

(** [l[i]] on a Python list. *)
Definition list_getitem {A} (l : list A) (i : nat) : Py A :=
  match l !! i with
  | Some a => ret a
  | None => raise (PyExc IndexError "list index out of range")
  end.

(** [try: body  except Exception as e: handler(e)]. *)
Definition try_except {A} (body : Py A) (handler : py_exc -> Py A) : Py A :=
  fun w =>
    match body w with
    | (Ok a, w') => (Ok a, w')
    | (Raised e, w') =>
        if is_Exception e then handler e w' else (Raised e, w')
    end.

(** The body of [completion_with_backoff], before decoration. *)
Definition completion_body (env : Env) (kwargs : RequestParams) : Py string :=
  try_except
    (do response <- create env kwargs;
     do choice <- list_getitem (choices response) 0;
     ret (content (message choice)))
    (fun e => ret (exc_str e)).

(** The [retry] decorator comes from the [retry] package, which is not part
    of the repository; this is its loop ([retry.api.__retry_internal]) with
    the defaults [exceptions=Exception], [backoff=1], [jitter=0] and no
    [max_delay]: call [f]; when it raises an [Exception], re-raise if no try
    is left, else sleep [delay] and try again.  An exception that is not an
    [Exception] passes through.  [more] is the number of tries left after
    the current one, so that [tries] calls are made at most, with [delay]
    between two calls. *)
Fixpoint retry_internal {A} (f : Py A) (more : nat) (delay : Z) : Py A :=
  fun w =>
    match f w with
    | (Ok a, w') => (Ok a, w')
    | (Raised e, w') =>
        if is_Exception e then
          match more with
          | O => (Raised e, w')
          | S more' =>
              (run sleep delay;
               retry_internal f more' (delay * 1 + 0)%Z) w'
          end
        else (Raised e, w')
    end.

(** [@retry(tries=..., delay=...)], for at least one try. *)
Definition retry {A} (tries : positive) (delay : Z) (f : Py A) : Py A :=
  retry_internal f (Pos.to_nat tries - 1) delay.

(** [completion_with_backoff], as decorated: [@retry(tries=6, delay=20)]. *)
Definition completion_with_backoff (env : Env) (kwargs : RequestParams)
    : Py string :=
  retry 6 20 (completion_body env kwargs).

(** ** [forward] *)

Definition default_system_prompt : string :=
  "You are a helpful assistant that accomplishes user tasks.".

Definition missing_key_message : string :=
  "Please set your OpenAI API key in evadb.yml file (third_party, open_api_key) or environment variable (OPENAI_KEY)".

(** [ConfigurationManager().get_value(category, key)]. *)
Definition config_get_value (env : Env) (category key : string) : Py string :=
  run emit (EvGetValue category key);
  ret (get_value env category key).

(** [os.environ.get(name, dflt)]. *)
Definition environ_get (env : Env) (name dflt : string) : Py string :=
  run emit (EvEnvironGet name);
  ret (default dflt (environ env !! name)).

(** [self.model] and [self.temperature]: reading an attribute that was never
    assigned raises [AttributeError]. *)
Definition getattr_model (self : ChatGPT) : Py string :=
  match self_model self with
  | Some m => ret m
  | None => raise (PyExc AttributeError
                     "'ChatGPT' object has no attribute 'model'")
  end.

Definition getattr_temperature (self : ChatGPT) : Py py_number :=
  match self_temperature self with
  | Some t => ret t
  | None => raise (PyExc AttributeError
                     "'ChatGPT' object has no attribute 'temperature'")
  end.

(** The request of one row: the [params] dictionary once the system message
    has been appended and the two user messages added. *)
Definition build_params (self : ChatGPT) (prompt : option string)
    (query ctx : string) : Py RequestParams :=
  do m <- getattr_model self;
  do t <- getattr_temperature self;
  let params := {| model := m; temperature := t; messages := [] |} in
  let def_sys_prompt_message :=
    {| role := "system";
       content := match prompt with
                  | Some p => p
                  | None => default_system_prompt
                  end |} in
  let params := {| model := model params; temperature := temperature params;
                   messages := messages params ++ [def_sys_prompt_message] |} in
  let params :=
    {| model := model params; temperature := temperature params;
       messages := messages params ++
         [ {| role := "user";
              content := "Here is some context : " +:+ ctx |};
           {| role := "user";
              content := "Complete the following task: " +:+ query |} ] |} in
  ret params.

(** The loop [for query, content in zip(queries, content)], with [results]
    the list built so far. *)
Fixpoint forward_loop (env : Env) (self : ChatGPT) (prompt : option string)
    (rows : list (string * string)) (results : list string)
    : Py (list string) :=
  match rows with
  | [] => ret results
  | (query, ctx) :: rows' =>
      do params <- build_params self prompt query ctx;
      do answer <- completion_with_backoff env params;
      forward_loop env self prompt rows' (results ++ [answer])
  end.

(** Lines 90 to 97: register the API key, configuration manager first, then
    the environment, and insist that one of them gave a key. *)
Definition register_api_key (env : Env) : Py unit :=
  do key <- config_get_value env "third_party" "OPENAI_KEY";
  run set_api_key key;
  do key <- get_api_key;
  run (if Nat.eqb (String.length key) 0 then
         do key' <- environ_get env "OPENAI_KEY" "";
         set_api_key key'
       else ret tt);
  do key <- get_api_key;
  py_assert (negb (Nat.eqb (String.length key) 0)) missing_key_message.

(** Lines 99 to 103: [queries] and [content] both start as the first column
    and are re-read by position when there is a second column. *)
Definition read_columns (text_df : DataFrame) : Py (Series * Series) :=
  do label <- columns_getitem text_df 0;
  do queries <- getitem text_df label;
  do label' <- columns_getitem text_df 0;
  do ctxs <- getitem text_df label';
  if Nat.ltb 1 (len_columns text_df) then
    do queries <- iloc_column text_df 0;
    do ctxs <- iloc_column text_df 1;
    ret (queries, ctxs)
  else ret (queries, ctxs).

(** Lines 105 to 107: the prompt is the cell of row 0 in the third column,
    when there is one. *)
Definition read_prompt (text_df : DataFrame) : Py (option string) :=
  if Nat.ltb 2 (len_columns text_df) then
    do p <- iloc_cell text_df 0 2;
    ret (Some p)
  else ret None.

(** [forward(self, text_df)].  The [openai] package is taken to be
    installed, so that [try_to_import_openai()] and [import openai] pass. *)
Definition forward (env : Env) (self : ChatGPT) (text_df : DataFrame)
    : Py DataFrame :=
  run register_api_key env;
  do '(queries, ctxs) <- read_columns text_df;
  do prompt <- read_prompt text_df;
  do results <- forward_loop env self prompt (zip queries ctxs) [];
  ret (response_frame results).

(** The world before anything has happened. *)
Definition initial_world : World := {| api_key := ""; trace := [] |}.

(** ** Vocabulary for the statements *)

(** Membership in the supported set, spelled out. *)
Definition supported (m : string) : Prop :=
  m = "gpt-4" ∨ m = "gpt-4-0314" ∨ m = "gpt-4-32k" ∨ m = "gpt-4-32k-0314"
  ∨ m = "gpt-3.5-turbo" ∨ m = "gpt-3.5-turbo-0301".

(** The three messages of a request, given the system text, the context and
    the task. *)
Definition system_message (text : string) : Message :=
  {| role := "system"; content := text |}.

Definition context_message (ctx : string) : Message :=
  {| role := "user"; content := "Here is some context : " +:+ ctx |}.

Definition task_message (query : string) : Message :=
  {| role := "user"; content := "Complete the following task: " +:+ query |}.

Definition system_text (prompt : option string) : string :=
  match prompt with
  | Some p => p
  | None => default_system_prompt
  end.

Definition request_params (m : string) (t : py_number)
    (prompt : option string) (row : string * string) : RequestParams :=
  {| model := m; temperature := t;
     messages := [ system_message (system_text prompt);
                   context_message row.2;
                   task_message row.1 ] |}.

(** [kw] is the request of [row]: it carries the object's model and
    temperature and the three messages, system first, then context, then
    task. *)
Definition request_for (self : ChatGPT) (prompt : option string)
    (row : string * string) (kw : RequestParams) : Prop :=
  self_model self = Some (model kw)
  ∧ self_temperature self = Some (temperature kw)
  ∧ messages kw = [ system_message (system_text prompt);
                    context_message row.2;
                    task_message row.1 ].

(** What a row's answer is, from what the service did on the one call made
    for it. *)
Definition answer_of (o : Outcome) : Result string :=
  match o with
  | Returns r =>
      match choices r with
      | c :: _ => Ok (content (message c))
      | [] => Ok "list index out of range"
      end
  | Raises e => if is_Exception e then Ok (exc_str e) else Raised e
  end.

(** The key [forward] ends up with. *)
Definition resolved_key (env : Env) : string :=
  let key := get_value env "third_party" "OPENAI_KEY" in
  if Nat.eqb (String.length key) 0
  then default "" (environ env !! "OPENAI_KEY")
  else key.

(** The reads that resolving the key makes. *)
Definition credential_events (env : Env) : list Event :=
  EvGetValue "third_party" "OPENAI_KEY" ::
  (if Nat.eqb (String.length (get_value env "third_party" "OPENAI_KEY")) 0
   then [EvEnvironGet "OPENAI_KEY"]
   else []).

(** Column [j] of a frame, empty when there is none. *)
Definition column (df : DataFrame) (j : nat) : Series :=
  match df !! j with
  | Some c => c.2
  | None => []
  end.

(** The column a row's content comes from. *)
Definition content_index (df : DataFrame) : nat :=
  if Nat.ltb 1 (len_columns df) then 1 else 0.

(** The rows the loop runs over. *)
Definition rows_of (df : DataFrame) : list (string * string) :=
  zip (column df 0) (column df (content_index df)).

(** The prompt of a frame: row 0 of column 2 when there are three columns. *)
Definition prompt_of (df : DataFrame) : option string :=
  if Nat.ltb 2 (len_columns df) then column df 2 !! 0 else None.

(** The events that a computation added to the trace. *)
Definition new_events (before after : World) : list Event :=
  drop (length (trace before)) (trace after).

(** ** Fixtures *)

Definition reply (text : string) : Response :=
  {| choices := [ {| message := {| role := "assistant"; content := text |} |} ] |}.

Definition rate_limit : py_exc := PyExc OtherException "Rate limit reached".

(** A service that fails twice and then succeeds. *)
Definition fails_twice : nat -> RequestParams -> Outcome :=
  fun n _ =>
    match n with
    | 0 | 1 => Raises rate_limit
    | _ => Returns (reply "done")
    end.

(** A service that fails on every call. *)
Definition always_fails : nat -> RequestParams -> Outcome :=
  fun _ _ => Raises rate_limit.

(** A service that echoes the task message. *)
Definition echo : nat -> RequestParams -> Outcome :=
  fun _ kw =>
    match messages kw !! 2 with
    | Some m => Returns (reply (content m))
    | None => Returns {| choices := [] |}
    end.

Definition env_with (key_in_config key_in_environ : string)
    (service : nat -> RequestParams -> Outcome) : Env :=
  {| get_value := fun _ _ => key_in_config;
     environ := {[ "OPENAI_KEY" := key_in_environ ]};
     remote := service |}.

Definition env_without_key (service : nat -> RequestParams -> Outcome) : Env :=
  {| get_value := fun _ _ => ""; environ := ∅; remote := service |}.

(** The adapter after [setup()] with the defaults. *)
Definition configured : ChatGPT :=
  {| self_model := Some "gpt-3.5-turbo"; self_temperature := Some (PyInt 0) |}.

Definition one_column : DataFrame := [ ("query", ["summarize"]) ].

Definition two_columns : DataFrame :=
  [ ("query", ["summarize"; "translate"]);
    ("content", ["a long text"; "bonjour"]) ].

Definition three_columns : DataFrame :=
  [ ("query", ["summarize"; "translate"]);
    ("content", ["a long text"; "bonjour"]);
    ("prompt", ["Be terse."; "Be verbose."]) ].

Definition three_columns_no_rows : DataFrame :=
  [ ("query", []); ("content", []); ("prompt", []) ].

(** ** Sequences of [setup] calls *)

(** The object after the host has called [setup] several times, a call that
    raised being followed by the next one. *)
Fixpoint setups (self : ChatGPT)
    (calls : list (option string * option py_number)) : ChatGPT :=
  match calls with
  | [] => self
  | (model_arg, temperature_arg) :: calls' =>
      setups (setup self model_arg temperature_arg).2 calls'
  end.

(** The two attributes are set together, and a model that is set is a
    supported one. *)
Definition well_configured (self : ChatGPT) : Prop :=
  (self_model self = None ↔ self_temperature self = None)
  ∧ ∀ m, self_model self = Some m → supported m.

(** A service whose responses carry no choice. *)
Definition no_choices : nat -> RequestParams -> Outcome :=
  fun _ _ => Returns {| choices := [] |}.

(** A service that offers two choices. *)
Definition two_choices : nat -> RequestParams -> Outcome :=
  fun _ _ =>
    Returns {| choices :=
      [ {| message := {| role := "assistant"; content := "first" |} |};
        {| message := {| role := "assistant"; content := "second" |} |} ] |}.

Definition keyboard_interrupt : py_exc := PyExc NonException "".

(** A service interrupted during its second call. *)
Definition interrupted : nat -> RequestParams -> Outcome :=
  fun n _ =>
    match n with
    | 1 => Raises keyboard_interrupt
    | _ => Returns (reply "done")
    end.

Definition two_columns_no_rows : DataFrame :=
  [ ("query", []); ("content", []) ].

(** [three_columns] under other labels, one of them repeated. *)
Definition three_columns_relabelled : DataFrame :=
  [ ("a", ["summarize"; "translate"]);
    ("a", ["a long text"; "bonjour"]);
    ("b", ["Be terse."; "Be verbose."]) ].

(** ** [setup] *)

Lemma model_in_valid_supported (m : string) :
  model_in_valid m = true ↔ supported m.
Proof.
  unfold model_in_valid, supported, _VALID_CHAT_COMPLETION_MODEL.
  rewrite bool_decide_eq_true.
  rewrite !elem_of_cons, elem_of_nil. tauto.
Qed.

Lemma model_in_valid_unsupported (m : string) :
  model_in_valid m = false ↔ ¬ supported m.
Proof.
  rewrite <- model_in_valid_supported.
  destruct (model_in_valid m); split; congruence.
Qed.

(** C4. [setup] succeeds exactly for the six supported models and raises an
    [AssertionError] for any other; when it succeeds the object holds the
    model and the temperature it was given, the defaults being
    ["gpt-3.5-turbo"] and [0]. *)
Theorem C4_setup_accepts_exactly_the_supported_models
    (self : ChatGPT) (model_arg : option string)
    (temperature_arg : option py_number) :
  let m := default "gpt-3.5-turbo" model_arg in
  let t := default (PyInt 0) temperature_arg in
  (supported m ∧
   setup self model_arg temperature_arg =
     (Ok tt, {| self_model := Some m; self_temperature := Some t |}))
  ∨
  (¬ supported m ∧
   (setup self model_arg temperature_arg).1 =
     Raised (PyExc AssertionError ("Unsupported ChatGPT " +:+ m))).
Proof.
  intros m t. unfold setup. fold m. fold t.
  change (default default_model model_arg) with m.
  change (default default_temperature temperature_arg) with t.
  destruct (model_in_valid m) eqn:E.
  - left. split; [by apply model_in_valid_supported | done].
  - right. split; [by apply model_in_valid_unsupported | done].
Qed.

(** C9. When the model is not supported, [setup] leaves the object as it
    was: neither attribute is assigned, whether the object was configured
    before or not. *)
Theorem C9_setup_failure_leaves_state (self : ChatGPT) (m : string)
    (temperature_arg : option py_number) :
  ¬ supported m →
  setup self (Some m) temperature_arg =
    (Raised (PyExc AssertionError ("Unsupported ChatGPT " +:+ m)), self).
Proof.
  intros H. apply model_in_valid_unsupported in H.
  unfold setup. simpl. by rewrite H.
Qed.

Lemma not_supported_gpt5 : ¬ supported "gpt-5".
Proof. apply model_in_valid_unsupported. reflexivity. Qed.

Lemma C9_setup_failure_leaves_state_witness :
  setup configured (Some "gpt-5") (Some (PyInt 1)) =
    (Raised (PyExc AssertionError "Unsupported ChatGPT gpt-5"), configured)
  ∧ setup unconfigured (Some "gpt-5") None =
    (Raised (PyExc AssertionError "Unsupported ChatGPT gpt-5"), unconfigured).
Proof.
  split.
  - apply (C9_setup_failure_leaves_state configured "gpt-5" (Some (PyInt 1))).
    apply not_supported_gpt5.
  - apply (C9_setup_failure_leaves_state unconfigured "gpt-5" None).
    apply not_supported_gpt5.
Defined.

(** ** The trace *)

Lemma created_app (t1 t2 : list Event) :
  created (t1 ++ t2) = created t1 ++ created t2.
Proof.
  induction t1 as [|ev t1 IH]; [done|].
  destruct ev; simpl; by rewrite IH.
Qed.

Lemma slept_app (t1 t2 : list Event) :
  slept (t1 ++ t2) = slept t1 ++ slept t2.
Proof.
  induction t1 as [|ev t1 IH]; [done|].
  destruct ev; simpl; by rewrite IH.
Qed.

Lemma created_creates (reqs : list RequestParams) :
  created (EvCreate <$> reqs) = reqs.
Proof. induction reqs as [|kw reqs IH]; simpl; [done | by f_equal]. Qed.

Lemma slept_creates (reqs : list RequestParams) :
  slept (EvCreate <$> reqs) = [].
Proof. induction reqs as [|kw reqs IH]; simpl; done. Qed.

Lemma new_events_app (w w' : World) (evs : list Event) :
  trace w' = trace w ++ evs → new_events w w' = evs.
Proof. intros H. unfold new_events. rewrite H. by rewrite drop_app_length. Qed.

(** ** One remote call *)

Lemma completion_body_run (env : Env) (kw : RequestParams) (w : World) :
  completion_body env kw w =
    (answer_of (remote env (length (created (trace w))) kw),
     log w (EvCreate kw)).
Proof.
  unfold completion_body, try_except, bind, create, answer_of.
  destruct (remote env _ kw) as [[[|c cs]]|e]; simpl; try done.
  by destruct (is_Exception e).
Qed.

Lemma answer_of_raised (o : Outcome) (e : py_exc) :
  answer_of o = Raised e → o = Raises e ∧ is_Exception e = false.
Proof.
  destruct o as [[[|c cs]]|e']; simpl; try done.
  destruct (is_Exception e') eqn:E; [done|].
  by intros [= ->].
Qed.

(** The decorator only acts when the decorated function raises an
    [Exception]. *)
Lemma retry_internal_no_exception {A} (f : Py A) (more : nat) (delay : Z)
    (w : World) :
  (∀ e w', f w = (Raised e, w') → is_Exception e = false) →
  retry_internal f more delay w = f w.
Proof.
  intros H. destruct more; simpl;
    destruct (f w) as [[a|e] w'] eqn:E; try done;
    by rewrite (H e w' eq_refl).
Qed.

(** [completion_with_backoff] is its undecorated body: the body turns every
    [Exception] into an answer, so the decorator never sees one. *)
Lemma completion_with_backoff_run (env : Env) (kw : RequestParams)
    (w : World) :
  completion_with_backoff env kw w =
    (answer_of (remote env (length (created (trace w))) kw),
     log w (EvCreate kw)).
Proof.
  unfold completion_with_backoff, retry.
  rewrite retry_internal_no_exception; [apply completion_body_run|].
  intros e w'. rewrite completion_body_run. intros [= H _].
  by apply answer_of_raised in H as [_ ?].
Qed.

(** ** The loop *)

Lemma build_params_configured (self : ChatGPT) (m : string) (t : py_number)
    (prompt : option string) (query ctx : string) (w : World) :
  self_model self = Some m →
  self_temperature self = Some t →
  build_params self prompt query ctx w =
    (Ok (request_params m t prompt (query, ctx)), w).
Proof.
  intros Hm Ht. unfold build_params, bind, getattr_model, getattr_temperature.
  by rewrite Hm, Ht.
Qed.

Lemma build_params_unconfigured (self : ChatGPT) (prompt : option string)
    (query ctx : string) (w : World) :
  self_model self = None ∨ self_temperature self = None →
  ∃ e, build_params self prompt query ctx w = (Raised e, w).
Proof.
  unfold build_params, bind, getattr_model, getattr_temperature.
  intros [H|H]; rewrite H; [by eexists|].
  destruct (self_model self); by eexists.
Qed.

Lemma forward_loop_cons (env : Env) (self : ChatGPT) (prompt : option string)
    (row : string * string) (rows : list (string * string))
    (results : list string) (w : World) :
  forward_loop env self prompt (row :: rows) results w =
    match build_params self prompt row.1 row.2 w with
    | (Ok kw, w1) =>
        match completion_with_backoff env kw w1 with
        | (Ok a, w2) => forward_loop env self prompt rows (results ++ [a]) w2
        | (Raised e, w2) => (Raised e, w2)
        end
    | (Raised e, w1) => (Raised e, w1)
    end.
Proof. by destruct row. Qed.

Section Loop.
Variables (env : Env) (self : ChatGPT) (prompt : option string).

(** Without a model or a temperature the loop stops at its first row,
    before any request. *)
Lemma forward_loop_unconfigured (rows : list (string * string))
    (results : list string) (w : World) :
  self_model self = None ∨ self_temperature self = None →
  (forward_loop env self prompt rows results w).2 = w.
Proof.
  intros H. destruct rows as [|row rows]; [done|].
  rewrite forward_loop_cons.
  destruct (build_params_unconfigured self prompt row.1 row.2 w H) as [e ->].
  done.
Qed.

Variables (m : string) (t : py_number).
Hypothesis Hm : self_model self = Some m.
Hypothesis Ht : self_temperature self = Some t.

(** The loop sends the requests of a prefix of the rows, in order, and one
    request per row.  When it returns, the prefix is all the rows and the
    results are extended by one answer per row, each being what the
    service did on the call made for that row.  When it raises, the
    exception comes from the service and is not an [Exception]. *)
Lemma forward_loop_configured (rows : list (string * string)) :
  ∀ (results : list string) (w : World) r w',
    forward_loop env self prompt rows results w = (r, w') →
    ∃ k, k ≤ length rows
      ∧ api_key w' = api_key w
      ∧ trace w' =
          trace w ++ (EvCreate <$> (request_params m t prompt <$> take k rows))
      ∧ (∀ res, r = Ok res →
           k = length rows ∧
           ∃ answers, res = results ++ answers
             ∧ length answers = length rows
             ∧ ∀ i row, rows !! i = Some row →
                 ∃ a, answers !! i = Some a
                   ∧ answer_of (remote env (length (created (trace w)) + i)
                                  (request_params m t prompt row)) = Ok a)
      ∧ (∀ e, r = Raised e →
           is_Exception e = false ∧ ∃ n kw, remote env n kw = Raises e).
Proof.
  induction rows as [|row rows IH]; intros results w r w' Hrun.
  - injection Hrun as <- <-. exists 0. simpl. split_and!.
    + lia.
    + done.
    + by rewrite app_nil_r.
    + intros res [= <-]. split; [done|]. exists [].
      rewrite app_nil_r. split_and!; done.
    + done.
  - rewrite forward_loop_cons in Hrun.
    rewrite (build_params_configured self m t prompt _ _ w Hm Ht) in Hrun.
    rewrite completion_with_backoff_run in Hrun.
    replace (row.1, row.2) with row in Hrun by by destruct row.
    set (kw := request_params m t prompt row) in *.
    destruct (answer_of (remote env (length (created (trace w))) kw))
      as [a|e] eqn:Ha.
    + apply IH in Hrun as (k & Hk & Hkey & Htr & Hok & Herr).
      exists (S k). simpl in *. split_and!.
      * lia.
      * done.
      * rewrite Htr. by rewrite <- app_assoc.
      * intros res Hres.
        destruct (Hok res Hres) as (-> & ans & -> & Hlen & Hans).
        split; [done|]. exists (a :: ans). split_and!.
        -- by rewrite <- app_assoc.
        -- simpl. by rewrite Hlen.
        -- intros [|i] row' Hrow; simpl in *.
           ++ injection Hrow as <-. exists a. split; [done|].
              by rewrite Nat.add_0_r.
           ++ destruct (Hans i row' Hrow) as (a' & Ha' & Hrem).
              exists a'. split; [done|].
              rewrite created_app, length_app in Hrem. simpl in Hrem.
              by replace (length (created (trace w)) + S i)
                with (length (created (trace w)) + 1 + i) by lia.
      * done.
    + injection Hrun as <- <-. exists 1. simpl. split_and!.
      * lia.
      * done.
      * done.
      * done.
      * intros e' [= <-]. apply answer_of_raised in Ha as [? ?]. eauto.
Qed.
End Loop.

(** ** The steps of [forward] before the loop *)

Lemma length_zero_empty (s : string) :
  Nat.eqb (String.length s) 0 = true ↔ s = "".
Proof. destruct s; simpl; split; intros; congruence. Qed.

Lemma register_api_key_run (env : Env) (w : World) :
  register_api_key env w =
    (if Nat.eqb (String.length (resolved_key env)) 0
     then Raised (PyExc AssertionError missing_key_message)
     else Ok tt,
     {| api_key := resolved_key env;
        trace := trace w ++ credential_events env |}).
Proof.
  unfold register_api_key, config_get_value, environ_get, bind, emit, log,
    set_api_key, get_api_key, py_assert, ret, raise, resolved_key,
    credential_events.
  simpl.
  destruct (Nat.eqb (String.length (get_value env "third_party" "OPENAI_KEY")) 0)
    eqn:E; simpl.
  - rewrite <- app_assoc. simpl.
    by destruct (Nat.eqb (String.length (default "" (environ env !! "OPENAI_KEY"))) 0).
  - by rewrite E.
Qed.

Lemma read_columns_run (df : DataFrame) (w : World) :
  read_columns df w =
    (match df with
     | [] => Raised index_error
     | _ :: _ => Ok (column df 0, column df (content_index df))
     end, w).
Proof.
  destruct df as [|[l0 s0] [|[l1 s1] df]]; try done;
    unfold read_columns, bind, columns_getitem, column, content_index; simpl;
    by rewrite String.eqb_refl.
Qed.

Lemma read_prompt_run (df : DataFrame) (w : World) :
  read_prompt df w =
    (if Nat.ltb 2 (len_columns df) then
       match prompt_of df with
       | Some p => Ok (Some p)
       | None => Raised index_error
       end
     else Ok None, w).
Proof.
  destruct df as [|c0 [|c1 [|[l2 s2] df]]]; try done.
  unfold read_prompt, prompt_of, bind, iloc_cell, column. simpl.
  by destruct s2.
Qed.

(** The three ways a call of [forward] can go: no key; a frame it cannot
    read (no column, or a third column without a first row); the loop. *)
Lemma forward_cases (env : Env) (self : ChatGPT) (df : DataFrame) (w : World) :
  let w1 := {| api_key := resolved_key env;
               trace := trace w ++ credential_events env |} in
  (resolved_key env = "" ∧
   forward env self df w =
     (Raised (PyExc AssertionError missing_key_message), w1))
  ∨ (resolved_key env ≠ "" ∧
     (df = [] ∨ (2 < len_columns df ∧ prompt_of df = None)) ∧
     forward env self df w = (Raised index_error, w1))
  ∨ (resolved_key env ≠ "" ∧ df ≠ [] ∧
     (2 < len_columns df → is_Some (prompt_of df)) ∧
     forward env self df w =
       (do results <- forward_loop env self (prompt_of df) (rows_of df) [];
        ret (response_frame results)) w1).
Proof.
  intros w1. remember (forward env self df w) as out eqn:Hout.
  unfold forward in Hout. unfold bind at 1 in Hout.
  rewrite register_api_key_run in Hout. fold w1 in Hout.
  destruct (Nat.eqb (String.length (resolved_key env)) 0) eqn:E.
  { left. by apply length_zero_empty in E. }
  right.
  assert (resolved_key env ≠ "") as Hkey.
  { intros H. apply length_zero_empty in H. congruence. }
  cbv beta iota in Hout. unfold bind at 1 in Hout.
  rewrite read_columns_run in Hout.
  destruct df as [|c0 df'] eqn:Edf.
  { left. auto. }
  rewrite <- Edf in *. cbv beta iota in Hout. unfold bind at 1 in Hout.
  rewrite read_prompt_run in Hout. fold (rows_of df) in Hout.
  destruct (Nat.ltb 2 (len_columns df)) eqn:E2.
  - apply Nat.ltb_lt in E2.
    destruct (prompt_of df) as [p|] eqn:Ep.
    + right. split_and!; try done. by rewrite Edf.
    + left. auto.
  - right. apply Nat.ltb_ge in E2. split_and!.
    + done.
    + by rewrite Edf.
    + lia.
    + rewrite Hout. unfold prompt_of.
      by replace (Nat.ltb 2 (len_columns df)) with false
        by (symmetry; apply Nat.ltb_ge; lia).
Qed.

(** ** What [forward] does, as a whole *)

Lemma bind_ret_world {A B} (c : Py A) (f : A → B) (w : World) :
  (bind c (λ a, ret (f a)) w).2 = (c w).2.
Proof. unfold bind, ret. by destruct (c w) as [[a|e] w']. Qed.

Lemma created_credential_events (env : Env) :
  created (credential_events env) = [].
Proof. unfold credential_events. by destruct (Nat.eqb _ 0). Qed.

Lemma request_params_for (self : ChatGPT) (m : string) (t : py_number)
    (prompt : option string) (row : string * string) :
  self_model self = Some m →
  self_temperature self = Some t →
  request_for self prompt row (request_params m t prompt row).
Proof. intros Hm Ht. by split_and!. Qed.

(** Every run of [forward], whether it returns or raises: the key is read
    first; then come only requests, the request at position [i] being the
    one of row [i]. *)
Lemma forward_trace (env : Env) (self : ChatGPT) (df : DataFrame) (w : World) :
  ∃ reqs,
    trace (forward env self df w).2 =
      trace w ++ credential_events env ++ (EvCreate <$> reqs)
    ∧ api_key (forward env self df w).2 = resolved_key env
    ∧ (resolved_key env = "" → reqs = [])
    ∧ length reqs ≤ length (rows_of df)
    ∧ ∀ i kw, reqs !! i = Some kw →
        (2 < len_columns df → is_Some (prompt_of df))
        ∧ ∃ row, rows_of df !! i = Some row
            ∧ request_for self (prompt_of df) row kw.
Proof.
  destruct (forward_cases env self df w) as
    [(Hk & ->) | [(Hk & _ & ->) | (Hk & Hdf & Hp & ->)]].
  - exists []. simpl. rewrite app_nil_r. split_and!; try done. lia.
  - exists []. simpl. rewrite app_nil_r. split_and!; try done. lia.
  - rewrite bind_ret_world.
    set (w1 := {| api_key := resolved_key env;
                  trace := trace w ++ credential_events env |}).
    destruct (self_model self) as [m|] eqn:Hm;
      [destruct (self_temperature self) as [t|] eqn:Ht|].
    + destruct (forward_loop env self (prompt_of df) (rows_of df) [] w1)
        as [r w2] eqn:Hrun.
      destruct (forward_loop_configured env self (prompt_of df) m t Hm Ht
                  _ _ _ _ _ Hrun) as (k & Hle & Hkey & Htr & _ & _).
      exists (request_params m t (prompt_of df) <$> take k (rows_of df)).
      simpl. split_and!.
      * rewrite Htr. simpl. by rewrite <- app_assoc.
      * done.
      * done.
      * rewrite length_fmap, length_take. lia.
      * intros i kw Hi. rewrite list_lookup_fmap in Hi.
        destruct (take k (rows_of df) !! i) as [row|] eqn:Hrow; [|done].
        injection Hi as <-. split; [done|]. exists row. split.
        -- apply lookup_take_Some in Hrow. tauto.
        -- by apply request_params_for.
    + rewrite forward_loop_unconfigured by auto.
      exists []. simpl. rewrite app_nil_r. split_and!; try done. lia.
    + rewrite forward_loop_unconfigured by auto.
      exists []. simpl. rewrite app_nil_r. split_and!; try done. lia.
Qed.

Lemma forward_loop_unconfigured_returns (env : Env) (self : ChatGPT)
    (prompt : option string) (rows : list (string * string))
    (results res : list string) (w w' : World) :
  self_model self = None ∨ self_temperature self = None →
  forward_loop env self prompt rows results w = (Ok res, w') →
  rows = [] ∧ res = results ∧ w' = w.
Proof.
  intros H. destruct rows as [|row rows].
  - by intros [= <- <-].
  - rewrite forward_loop_cons.
    by destruct (build_params_unconfigured self prompt row.1 row.2 w H) as [e ->].
Qed.

(** A run of [forward] that returns: there was a key and a first column, one
    request was sent for each row, and the frame returned holds, row by row,
    the answer to that row's request. *)
Lemma forward_returns (env : Env) (self : ChatGPT) (df : DataFrame)
    (w w' : World) (out : DataFrame) :
  forward env self df w = (Ok out, w') →
  resolved_key env ≠ "" ∧ df ≠ [] ∧
  ∃ results reqs,
    out = response_frame results
    ∧ trace w' = trace w ++ credential_events env ++ (EvCreate <$> reqs)
    ∧ length results = length (rows_of df)
    ∧ length reqs = length (rows_of df)
    ∧ ∀ i row, rows_of df !! i = Some row →
        ∃ kw a, reqs !! i = Some kw
          ∧ request_for self (prompt_of df) row kw
          ∧ results !! i = Some a
          ∧ answer_of (remote env (length (created (trace w)) + i) kw) = Ok a.
Proof.
  destruct (forward_cases env self df w) as
    [(Hk & ->) | [(Hk & _ & ->) | (Hk & Hdf & Hp & ->)]]; try done.
  set (w1 := {| api_key := resolved_key env;
                trace := trace w ++ credential_events env |}).
  unfold bind, ret.
  destruct (forward_loop env self (prompt_of df) (rows_of df) [] w1)
    as [[res|e] w2] eqn:Hrun; [|done].
  intros [= <- <-]. split; [done|]. split; [done|].
  destruct (self_model self) as [m|] eqn:Hm;
    [destruct (self_temperature self) as [t|] eqn:Ht|].
  - destruct (forward_loop_configured env self (prompt_of df) m t Hm Ht
                _ _ _ _ _ Hrun) as (k & Hle & Hkey & Htr & Hok & _).
    destruct (Hok res eq_refl) as (-> & answers & -> & Hlen & Hans).
    exists answers, (request_params m t (prompt_of df) <$> rows_of df).
    rewrite firstn_all in Htr. simpl in *. split_and!.
    + done.
    + rewrite Htr. by rewrite <- app_assoc.
    + done.
    + by rewrite length_fmap.
    + intros i row Hrow. destruct (Hans i row Hrow) as (a & Ha & Hrem).
      exists (request_params m t (prompt_of df) row), a. split_and!.
      * by rewrite list_lookup_fmap, Hrow.
      * by apply request_params_for.
      * done.
      * rewrite created_app, created_credential_events, app_nil_r in Hrem.
        done.
  - apply forward_loop_unconfigured_returns in Hrun as (Hrows & -> & ->);
      [|auto].
    exists [], []. rewrite Hrows. simpl. rewrite app_nil_r.
    split_and!; done.
  - apply forward_loop_unconfigured_returns in Hrun as (Hrows & -> & ->);
      [|auto].
    exists [], []. rewrite Hrows. simpl. rewrite app_nil_r.
    split_and!; done.
Qed.

(** ** Rows of a well-formed frame *)

Lemma rows_of_length (df : DataFrame) :
  well_formed df = true → length (rows_of df) = len_rows df.
Proof.
  unfold rows_of, content_index, column, len_columns.
  destruct df as [|[l0 s0] [|[l1 s1] df]]; simpl; intros Hwf.
  - done.
  - rewrite length_zip_with. lia.
  - rewrite length_zip_with.
    apply andb_prop in Hwf as [_ Hwf]. apply andb_prop in Hwf as [Hwf _].
    apply Nat.eqb_eq in Hwf. simpl in Hwf. lia.
Qed.

Lemma rows_of_lookup (df : DataFrame) (i : nat) (row : string * string) :
  rows_of df !! i = Some row ↔
  column df 0 !! i = Some row.1 ∧ column df (content_index df) !! i = Some row.2.
Proof.
  unfold rows_of. destruct row as [q c]. simpl. split.
  - intros H. apply lookup_zip_with_Some in H as (x & y & [= <- <-] & ? & ?).
    done.
  - intros [Hq Hc]. apply lookup_zip_with_Some. eauto.
Qed.

Lemma column_no_rows (df : DataFrame) (j : nat) :
  well_formed df = true → len_rows df = 0 → column df j = [].
Proof.
  intros Hwf H0. unfold column, well_formed in *.
  destruct (df !! j) as [c|] eqn:Hc; [|done].
  rewrite forallb_forall in Hwf.
  apply list_elem_of_lookup_2, list_elem_of_In, Hwf, Nat.eqb_eq in Hc.
  rewrite H0 in Hc. by apply nil_length_inv.
Qed.

Lemma column_first_row (df : DataFrame) (j : nat) :
  well_formed df = true → j < len_columns df → 0 < len_rows df →
  is_Some (column df j !! 0).
Proof.
  intros Hwf Hj H0. unfold column, well_formed, len_columns in *.
  destruct (df !! j) as [c|] eqn:Hc;
    [|apply lookup_ge_None in Hc; exfalso;
      exact (Nat.lt_irrefl _ (Nat.lt_le_trans _ _ _ Hj Hc))].
  rewrite forallb_forall in Hwf.
  apply list_elem_of_lookup_2, list_elem_of_In, Hwf, Nat.eqb_eq in Hc.
  apply lookup_lt_is_Some_2.
  exact (eq_ind_r (λ n, 0 < n) H0 Hc).
Qed.

(** [forward] returns whenever there is a key, the adapter is configured,
    the frame has a first column and, with a third column, a first row, and
    the service raises nothing but [Exception]s. *)
Lemma forward_returns_when (env : Env) (self : ChatGPT) (df : DataFrame)
    (w : World) (m : string) (t : py_number) :
  self_model self = Some m →
  self_temperature self = Some t →
  resolved_key env ≠ "" →
  df ≠ [] →
  (2 < len_columns df → is_Some (prompt_of df)) →
  (∀ n kw e, remote env n kw = Raises e → is_Exception e = true) →
  ∃ out w', forward env self df w = (Ok out, w').
Proof.
  intros Hm Ht Hkey Hdf Hp Hexc.
  destruct (forward_cases env self df w) as
    [(Hk & _) | [(_ & Hbad & _) | (_ & _ & _ & ->)]].
  - done.
  - destruct Hbad as [?|[H2 Hnone]]; [done|].
    apply Hp in H2. rewrite Hnone in H2. by destruct H2.
  - unfold bind, ret.
    destruct (forward_loop env self (prompt_of df) (rows_of df) [] _)
      as [[res|e] w2] eqn:Hrun; [by eauto|].
    destruct (forward_loop_configured env self (prompt_of df) m t Hm Ht
                _ _ _ _ _ Hrun) as (k & _ & _ & _ & _ & Herr).
    destruct (Herr e eq_refl) as (Hne & n & kw & Hrem).
    apply Hexc in Hrem. congruence.
Qed.

(** ** The retry policy *)

(** What the decorator does when the decorated function does raise: on a
    service that fails twice, three calls, two sleeps of 20, and the third
    call's response. *)
Example retry_create_fails_twice :
  let kw := request_params "gpt-4" (PyInt 0) None ("q", "c") in
  let out := retry 6 20 (create (env_with "k" "" fails_twice) kw) initial_world in
  out.1 = Ok (reply "done")
  ∧ created (trace out.2) = [kw; kw; kw]
  ∧ slept (trace out.2) = [20; 20]%Z.
Proof. by vm_compute. Qed.

(** On a service that always fails, six calls, five sleeps of 20, and the
    last exception is raised. *)
Example retry_create_always_fails :
  let kw := request_params "gpt-4" (PyInt 0) None ("q", "c") in
  let out := retry 6 20 (create (env_with "k" "" always_fails) kw) initial_world in
  out.1 = Raised rate_limit
  ∧ length (created (trace out.2)) = 6
  ∧ slept (trace out.2) = [20; 20; 20; 20; 20]%Z.
Proof. by vm_compute. Qed.

(** [completion_with_backoff] itself makes one call and never sleeps,
    whatever the service does. *)
Lemma completion_with_backoff_single_attempt (env : Env) (kw : RequestParams)
    (w : World) :
  new_events w (completion_with_backoff env kw w).2 = [EvCreate kw].
Proof.
  rewrite completion_with_backoff_run. by apply new_events_app.
Qed.

(** C1. On a service that fails on the first two calls and succeeds on the
    third, [forward] on a one-row frame makes a single call, never sleeps,
    and returns the text of the first failure as the row's response: the
    success value is not reached. *)
Theorem C1_first_failure_is_returned_without_retry :
  let out :=
    forward (env_with "sk-test" "" fails_twice) configured one_column
      initial_world in
  out.1 = Ok [("response", ["Rate limit reached"])]
  ∧ length (created (trace out.2)) = 1
  ∧ slept (trace out.2) = []
  ∧ fails_twice 2 (request_params "gpt-3.5-turbo" (PyInt 0) None
                     ("summarize", "summarize")) = Returns (reply "done").
Proof. by vm_compute. Qed.

(** ** The credential *)

(** Without a key in the configuration store or in the environment,
    [forward] raises before any request. *)
Example forward_without_key :
  forward (env_without_key echo) configured three_columns initial_world =
    (Raised (PyExc AssertionError missing_key_message),
     {| api_key := "";
        trace := [EvGetValue "third_party" "OPENAI_KEY";
                  EvEnvironGet "OPENAI_KEY"] |}).
Proof. by vm_compute. Qed.

Lemma resolved_key_config (env : Env) :
  get_value env "third_party" "OPENAI_KEY" ≠ "" →
  resolved_key env = get_value env "third_party" "OPENAI_KEY"
  ∧ credential_events env = [EvGetValue "third_party" "OPENAI_KEY"].
Proof.
  intros H. unfold resolved_key, credential_events.
  destruct (Nat.eqb _ 0) eqn:E; [|done].
  by apply length_zero_empty in E.
Qed.

Lemma resolved_key_environ (env : Env) :
  get_value env "third_party" "OPENAI_KEY" = "" →
  resolved_key env = default "" (environ env !! "OPENAI_KEY")
  ∧ credential_events env =
      [EvGetValue "third_party" "OPENAI_KEY"; EvEnvironGet "OPENAI_KEY"].
Proof.
  intros H. unfold resolved_key, credential_events. by rewrite H.
Qed.

Lemma Forall_is_create (reqs : list RequestParams) :
  Forall (λ ev, is_create ev = true) (EvCreate <$> reqs).
Proof. apply Forall_fmap, Forall_true. done. Qed.

(** C3. Every call of [forward] starts by reading [(third_party,
    OPENAI_KEY)] from the configuration store, and reads it once.  When the
    value is not empty it is the key and the environment is not read.  When
    it is empty, the next action is one read of the environment variable
    [OPENAI_KEY], whose value (empty when unset) is the key.  Everything
    after these reads is a remote call; and when both values are empty
    [forward] raises the [AssertionError] that tells how to set the key,
    with no remote call made. *)
Theorem C3_credential_resolution
    (env : Env) (self : ChatGPT) (df : DataFrame) (w : World) :
  let out := forward env self df w in
  let in_config := get_value env "third_party" "OPENAI_KEY" in
  let in_environ := default "" (environ env !! "OPENAI_KEY") in
  ∃ rest,
    new_events w out.2 = EvGetValue "third_party" "OPENAI_KEY" :: rest
    ∧ (in_config ≠ "" →
         api_key out.2 = in_config
         ∧ Forall (λ ev, is_create ev = true) rest)
    ∧ (in_config = "" →
         api_key out.2 = in_environ
         ∧ ∃ rest', rest = EvEnvironGet "OPENAI_KEY" :: rest'
             ∧ Forall (λ ev, is_create ev = true) rest')
    ∧ (in_config = "" → in_environ = "" →
         out.1 = Raised (PyExc AssertionError missing_key_message)
         ∧ rest = [EvEnvironGet "OPENAI_KEY"]).
Proof.
  intros out in_config in_environ.
  destruct (forward_trace env self df w)
    as (reqs & Htr & Hkey & Hnone & _ & _).
  fold out in Htr, Hkey.
  destruct (decide (in_config = "")) as [Hc|Hc].
  - destruct (resolved_key_environ env Hc) as [Hr Hev].
    fold in_environ in Hr.
    exists (EvEnvironGet "OPENAI_KEY" :: (EvCreate <$> reqs)).
    rewrite Hev in Htr. split_and!.
    + by apply new_events_app.
    + done.
    + intros _. split; [by rewrite Hkey|].
      eexists. split; [done|]. apply Forall_is_create.
    + intros _ He. rewrite He in Hr. rewrite (Hnone Hr). split; [|done].
      subst out.
      destruct (forward_cases env self df w) as
        [(_ & ->) | [(Hk & _) | (Hk & _)]]; done.
  - destruct (resolved_key_config env Hc) as [Hr Hev].
    exists (EvCreate <$> reqs). rewrite Hev in Htr. split_and!.
    + by apply new_events_app.
    + intros _. split; [by rewrite Hkey|]. apply Forall_is_create.
    + done.
    + done.
Qed.

(** ** The requests *)

(** The request at position [i] among those that a call of [forward] sends
    is the request of row [i]. *)
Lemma forward_request_at (env : Env) (self : ChatGPT) (df : DataFrame)
    (w : World) (i : nat) (kw : RequestParams) :
  created (new_events w (forward env self df w).2) !! i = Some kw →
  (2 < len_columns df → is_Some (prompt_of df))
  ∧ ∃ row, rows_of df !! i = Some row
      ∧ request_for self (prompt_of df) row kw.
Proof.
  destruct (forward_trace env self df w) as (reqs & Htr & _ & _ & _ & Hreq).
  rewrite (new_events_app _ _ _ Htr), created_app, created_credential_events,
    created_creates.
  apply Hreq.
Qed.

Lemma prompt_of_fewer_columns (df : DataFrame) :
  len_columns df ≤ 2 → prompt_of df = None.
Proof.
  intros H. unfold prompt_of.
  by replace (Nat.ltb 2 (len_columns df)) with false
    by (symmetry; apply Nat.ltb_ge; lia).
Qed.

Lemma prompt_of_three_columns (df : DataFrame) :
  2 < len_columns df → prompt_of df = column df 2 !! 0.
Proof.
  intros H. unfold prompt_of.
  by replace (Nat.ltb 2 (len_columns df)) with true
    by (symmetry; apply Nat.ltb_lt; lia).
Qed.

(** C6. In every request that [forward] sends, the first message is the
    system message; its content is the value in row 0 of column 2 when the
    frame has at least three columns, whichever row the request is for, and
    the default instruction when the frame has fewer. *)
Theorem C6_system_message
    (env : Env) (self : ChatGPT) (df : DataFrame) (w : World)
    (i : nat) (kw : RequestParams) :
  created (new_events w (forward env self df w).2) !! i = Some kw →
  (3 ≤ len_columns df →
     ∃ p, column df 2 !! 0 = Some p
       ∧ messages kw !! 0 = Some {| role := "system"; content := p |})
  ∧ (len_columns df < 3 →
       messages kw !! 0 =
         Some {| role := "system";
                 content :=
                   "You are a helpful assistant that accomplishes user tasks." |}).
Proof.
  intros H.
  apply forward_request_at in H as (Hp & row & _ & _ & _ & Hmsg).
  rewrite Hmsg. split.
  - intros H3. destruct (Hp H3) as [p Hsome]. exists p.
    rewrite <- prompt_of_three_columns by lia. by rewrite Hsome.
  - intros H3. by rewrite prompt_of_fewer_columns by lia.
Qed.

Lemma C6_system_message_witness :
  (∃ p, column three_columns 2 !! 0 = Some p
     ∧ messages
         (request_params "gpt-3.5-turbo" (PyInt 0) (Some "Be terse.")
            ("translate", "bonjour")) !! 0 =
       Some {| role := "system"; content := p |})
  ∧ messages
      (request_params "gpt-3.5-turbo" (PyInt 0) None
         ("translate", "bonjour")) !! 0 =
    Some {| role := "system";
            content :=
              "You are a helpful assistant that accomplishes user tasks." |}.
Proof.
  split.
  - apply (C6_system_message (env_with "sk-test" "" echo) configured
             three_columns initial_world 1); [reflexivity | vm_compute; lia].
  - apply (C6_system_message (env_with "sk-test" "" echo) configured
             two_columns initial_world 1); [reflexivity | vm_compute; lia].
Defined.

(** C7. The request at position [i] is built from row [i]: its task message
    embeds the row's entry in column 0.  With exactly one column its context
    message embeds that same string; with two columns or more it embeds the
    row's entry in column 1.  And every row has its request: when [forward]
    returns on a well-formed frame, it has sent as many requests as the
    frame has rows. *)
Theorem C7_content_defaults_to_query
    (env : Env) (self : ChatGPT) (df : DataFrame) (w : World) :
  (∀ i kw,
     created (new_events w (forward env self df w).2) !! i = Some kw →
     ∃ query,
       column df 0 !! i = Some query
       ∧ messages kw !! 2 =
           Some {| role := "user";
                   content := "Complete the following task: " +:+ query |}
       ∧ (len_columns df = 1 →
            messages kw !! 1 =
              Some {| role := "user";
                      content := "Here is some context : " +:+ query |})
       ∧ (2 ≤ len_columns df →
            ∃ ctx, column df 1 !! i = Some ctx
              ∧ messages kw !! 1 =
                  Some {| role := "user";
                          content := "Here is some context : " +:+ ctx |}))
  ∧ (∀ out w',
       forward env self df w = (Ok out, w') →
       well_formed df = true →
       length (created (new_events w w')) = len_rows df).
Proof.
  split.
  - intros i kw H.
    apply forward_request_at in H as (_ & [query ctx] & Hrow & _ & _ & Hmsg).
    apply rows_of_lookup in Hrow as [Hq Hc]. simpl in *.
    exists query. rewrite Hmsg. split_and!; try done.
    + intros H1. unfold content_index in Hc. rewrite H1 in Hc. simpl in Hc.
      rewrite Hq in Hc. by injection Hc as <-.
    + intros H2. exists ctx. split; [|done].
      unfold content_index in Hc.
      by replace (Nat.ltb 1 (len_columns df)) with true in Hc
        by (symmetry; apply Nat.ltb_lt; lia).
  - intros out w' Hrun Hwf.
    apply forward_returns in Hrun
      as (_ & _ & results & reqs & _ & Htr & _ & Hreqs & _).
    rewrite (new_events_app _ _ _ Htr), created_app,
      created_credential_events, created_creates. simpl.
    by rewrite Hreqs, rows_of_length.
Qed.

(** On [two_columns] the request of row 1 takes its context from column 1
    and its task from column 0, and both rows get a request; on
    [one_column] the request of row 0 takes both from column 0. *)
Lemma C7_content_defaults_to_query_witness :
  let env := env_with "sk-test" "" echo in
  (∃ kw,
     created (new_events initial_world
                (forward env configured two_columns initial_world).2) !! 1
       = Some kw
     ∧ messages kw !! 1 =
         Some {| role := "user"; content := "Here is some context : bonjour" |}
     ∧ messages kw !! 2 =
         Some {| role := "user";
                 content := "Complete the following task: translate" |})
  ∧ length (created (new_events initial_world
                       (forward env configured two_columns initial_world).2))
      = 2
  ∧ (∃ kw,
       created (new_events initial_world
                  (forward env configured one_column initial_world).2) !! 0
         = Some kw
       ∧ messages kw !! 1 =
           Some {| role := "user";
                   content := "Here is some context : summarize" |}
       ∧ messages kw !! 2 =
           Some {| role := "user";
                   content := "Complete the following task: summarize" |}).
Proof.
  intros env.
  destruct (C7_content_defaults_to_query env configured two_columns
              initial_world) as [Hrequest2 Hrows2].
  destruct (C7_content_defaults_to_query env configured one_column
              initial_world) as [Hrequest1 _].
  split_and!.
  - destruct (created (new_events initial_world
                (forward env configured two_columns initial_world).2) !! 1)
      as [kw|] eqn:Hkw; [|vm_compute in Hkw; discriminate].
    destruct (Hrequest2 1 kw Hkw) as (query & Hq & Htask & _ & Hctx).
    destruct Hctx as (ctx & Hc & Hctx); [vm_compute; lia|].
    injection Hq as <-. injection Hc as <-.
    exists kw. split_and!; [reflexivity | exact Hctx | exact Htask].
  - apply (Hrows2 [("response", ["Complete the following task: summarize";
                                  "Complete the following task: translate"])]
             (forward env configured two_columns initial_world).2);
      reflexivity.
  - destruct (created (new_events initial_world
                (forward env configured one_column initial_world).2) !! 0)
      as [kw|] eqn:Hkw; [|vm_compute in Hkw; discriminate].
    destruct (Hrequest1 0 kw Hkw) as (query & Hq & Htask & Hctx & _).
    injection Hq as <-.
    exists kw. split_and!; [reflexivity | apply Hctx; reflexivity | exact Htask].
Defined.

(** C8. Every request that [forward] sends carries the model and the
    temperature stored by [setup] and exactly three messages: the system
    message, then the user message ["Here is some context : "] followed by
    the row's content, then the user message ["Complete the following task: "]
    followed by the row's query. *)
Theorem C8_request_shape
    (env : Env) (self : ChatGPT) (df : DataFrame) (w : World)
    (i : nat) (kw : RequestParams) :
  created (new_events w (forward env self df w).2) !! i = Some kw →
  ∃ sys query ctx,
    column df 0 !! i = Some query
    ∧ column df (content_index df) !! i = Some ctx
    ∧ messages kw =
        [ {| role := "system"; content := sys |};
          {| role := "user"; content := "Here is some context : " +:+ ctx |};
          {| role := "user";
             content := "Complete the following task: " +:+ query |} ]
    ∧ self_model self = Some (model kw)
    ∧ self_temperature self = Some (temperature kw).
Proof.
  intros H.
  apply forward_request_at in H as (_ & [query ctx] & Hrow & Hm & Ht & Hmsg).
  apply rows_of_lookup in Hrow as [Hq Hc].
  exists (system_text (prompt_of df)), query, ctx. by split_and!.
Qed.

Lemma C8_request_shape_witness :
  ∃ sys query ctx,
    column three_columns 0 !! 1 = Some query
    ∧ column three_columns (content_index three_columns) !! 1 = Some ctx
    ∧ messages (request_params "gpt-3.5-turbo" (PyInt 0) (Some "Be terse.")
                  ("translate", "bonjour")) =
        [ {| role := "system"; content := sys |};
          {| role := "user"; content := "Here is some context : " +:+ ctx |};
          {| role := "user";
             content := "Complete the following task: " +:+ query |} ]
    ∧ self_model configured =
        Some (model (request_params "gpt-3.5-turbo" (PyInt 0)
                       (Some "Be terse.") ("translate", "bonjour")))
    ∧ self_temperature configured =
        Some (temperature (request_params "gpt-3.5-turbo" (PyInt 0)
                             (Some "Be terse.") ("translate", "bonjour"))).
Proof.
  apply (C8_request_shape (env_with "sk-test" "" echo) configured
           three_columns initial_world 1).
  reflexivity.
Defined.

(** ** The output *)

(** C5. When [forward] returns, the frame it returns has the single column
    [response] and as many rows as the input; it sent one request per input
    row, in row order, and row [i] of the output is the answer to the
    request built from row [i] of the input. *)
Theorem C5_output_follows_input
    (env : Env) (self : ChatGPT) (df : DataFrame) (w w' : World)
    (out : DataFrame) :
  well_formed df = true →
  forward env self df w = (Ok out, w') →
  ∃ results,
    out = [("response", results)]
    ∧ len_columns out = 1
    ∧ len_rows out = len_rows df
    ∧ length (created (new_events w w')) = len_rows df
    ∧ ∀ i, i < len_rows df →
        ∃ query ctx kw a,
          column df 0 !! i = Some query
          ∧ column df (content_index df) !! i = Some ctx
          ∧ created (new_events w w') !! i = Some kw
          ∧ request_for self (prompt_of df) (query, ctx) kw
          ∧ answer_of (remote env (length (created (trace w)) + i) kw) = Ok a
          ∧ column out 0 !! i = Some a.
Proof.
  intros Hwf Hrun.
  apply forward_returns in Hrun
    as (_ & _ & results & reqs & -> & Htr & Hres & Hreqs & Hrows).
  rewrite (rows_of_length df Hwf) in Hres, Hreqs.
  rewrite (new_events_app _ _ _ Htr), created_app, created_credential_events,
    created_creates.
  exists results. split_and!; try done.
  intros i Hi.
  destruct (lookup_lt_is_Some_2 (rows_of df) i) as [[query ctx] Hrow].
  { rewrite (rows_of_length df Hwf). exact Hi. }
  destruct (Hrows i _ Hrow) as (kw & a & Hkw & Hfor & Ha & Hans).
  apply rows_of_lookup in Hrow as [Hq Hc].
  exists query, ctx, kw, a. by split_and!.
Qed.

Lemma C5_output_follows_input_witness :
  let env := env_with "sk-test" "" echo in
  let w' := (forward env configured three_columns initial_world).2 in
  let out := [("response", ["Complete the following task: summarize";
                            "Complete the following task: translate"])] in
  ∃ results,
    out = [("response", results)]
    ∧ len_columns out = 1
    ∧ len_rows out = len_rows three_columns
    ∧ length (created (new_events initial_world w')) = len_rows three_columns
    ∧ ∀ i, i < len_rows three_columns →
        ∃ query ctx kw a,
          column three_columns 0 !! i = Some query
          ∧ column three_columns (content_index three_columns) !! i = Some ctx
          ∧ created (new_events initial_world w') !! i = Some kw
          ∧ request_for configured (prompt_of three_columns) (query, ctx) kw
          ∧ answer_of (remote env (length (created (trace initial_world)) + i)
                         kw) = Ok a
          ∧ column out 0 !! i = Some a.
Proof.
  intros env w' out.
  apply (C5_output_follows_input env configured three_columns initial_world
           w' out).
  - reflexivity.
  - reflexivity.
Defined.

(** C2. With a key, a configured adapter and a frame that has a row, and a
    service that raises nothing but [Exception]s, [forward] returns: no
    exception reaches the caller.  One request is sent for every row, so the
    rows after a failing one are processed too, and the response of a row
    whose call raised is [str] of that exception.  The call made for row [i]
    is the one numbered [i] among the calls of this batch; a row whose call
    raises at every attempt raises at this one. *)
Theorem C2_exceptions_become_responses
    (env : Env) (self : ChatGPT) (df : DataFrame) (w : World)
    (m : string) (t : py_number) :
  self_model self = Some m →
  self_temperature self = Some t →
  resolved_key env ≠ "" →
  well_formed df = true →
  0 < len_rows df →
  (∀ n kw e, remote env n kw = Raises e → is_Exception e = true) →
  ∃ results w',
    forward env self df w = (Ok [("response", results)], w')
    ∧ length results = len_rows df
    ∧ length (created (new_events w w')) = len_rows df
    ∧ ∀ i kw e,
        created (new_events w w') !! i = Some kw →
        remote env (length (created (trace w)) + i) kw = Raises e →
        results !! i = Some (exc_str e).
Proof.
  intros Hm Ht Hkey Hwf Hrows Hexc.
  assert (df ≠ []) as Hdf by (intros ->; simpl in Hrows; lia).
  assert (2 < len_columns df → is_Some (prompt_of df)) as Hp.
  { intros H2. rewrite prompt_of_three_columns by done.
    by apply column_first_row. }
  destruct (forward_returns_when env self df w m t Hm Ht Hkey Hdf Hp Hexc)
    as (out & w' & Hrun).
  destruct (forward_returns _ _ _ _ _ _ Hrun)
    as (_ & _ & results & reqs & -> & Htr & Hres & Hreqs & Hans).
  rewrite (rows_of_length df Hwf) in Hres, Hreqs.
  exists results, w'.
  rewrite (new_events_app _ _ _ Htr), created_app, created_credential_events,
    created_creates.
  split_and!; try done.
  intros i kw e Hkw Hrem. simpl in Hkw.
  destruct (lookup_lt_is_Some_2 (rows_of df) i) as [row Hrow].
  { rewrite (rows_of_length df Hwf), <- Hreqs. by eapply lookup_lt_Some. }
  destruct (Hans i row Hrow) as (kw' & a & Hkw' & _ & Ha & Hanswer).
  rewrite Hkw in Hkw'. injection Hkw' as <-.
  rewrite Hrem in Hanswer. simpl in Hanswer.
  rewrite (Hexc _ _ _ Hrem) in Hanswer. by injection Hanswer as <-.
Qed.

Lemma C2_exceptions_become_responses_witness :
  ∃ results w',
    forward (env_with "" "sk-test" always_fails) configured two_columns
      initial_world = (Ok [("response", results)], w')
    ∧ length results = len_rows two_columns
    ∧ length (created (new_events initial_world w')) = len_rows two_columns
    ∧ ∀ i kw e,
        created (new_events initial_world w') !! i = Some kw →
        remote (env_with "" "sk-test" always_fails)
          (length (created (trace initial_world)) + i) kw = Raises e →
        results !! i = Some (exc_str e).
Proof.
  apply (C2_exceptions_become_responses (env_with "" "sk-test" always_fails)
           configured two_columns initial_world "gpt-3.5-turbo" (PyInt 0)).
  - reflexivity.
  - reflexivity.
  - vm_compute. discriminate.
  - reflexivity.
  - vm_compute. lia.
  - intros n kw e H. injection H as <-. reflexivity.
Defined.

(** A frame without rows and with one or two columns: no request, and an
    empty [response] column. *)
Lemma forward_no_rows_up_to_two_columns
    (env : Env) (self : ChatGPT) (df : DataFrame) (w : World) :
  resolved_key env ≠ "" →
  well_formed df = true →
  df ≠ [] →
  len_columns df ≤ 2 →
  len_rows df = 0 →
  forward env self df w =
    (Ok [("response", [])],
     {| api_key := resolved_key env;
        trace := trace w ++ credential_events env |}).
Proof.
  intros Hkey Hwf Hdf H2 H0.
  destruct (forward_cases env self df w) as
    [(Hk & _) | [(_ & Hbad & _) | (_ & _ & _ & ->)]].
  - done.
  - destruct Hbad as [?|[? _]]; [done | lia].
  - pose proof (rows_of_length df Hwf) as Hlen. rewrite H0 in Hlen.
    apply nil_length_inv in Hlen. by rewrite Hlen.
Qed.

(** C10. A frame without rows and with three columns or more, with a key
    set: [forward] raises an [IndexError] when it reads the prompt from row
    0, instead of returning an empty [response] column.  No request is
    sent. *)
Theorem C10_no_rows_three_columns_raises
    (env : Env) (self : ChatGPT) (df : DataFrame) (w : World) :
  resolved_key env ≠ "" →
  well_formed df = true →
  2 < len_columns df →
  len_rows df = 0 →
  ∃ e,
    forward env self df w =
      (Raised e,
       {| api_key := resolved_key env;
          trace := trace w ++ credential_events env |})
    ∧ exc_cls e = IndexError.
Proof.
  intros Hkey Hwf H2 H0. exists index_error. split; [|done].
  destruct (forward_cases env self df w) as
    [(Hk & _) | [(_ & _ & ->) | (_ & _ & Hp & _)]].
  - done.
  - done.
  - pose proof (Hp H2) as Hs. rewrite prompt_of_three_columns in Hs by done.
    rewrite (column_no_rows df 2 Hwf H0) in Hs. by destruct Hs.
Qed.

Lemma C10_no_rows_three_columns_raises_witness :
  ∃ e,
    forward (env_with "sk-test" "" echo) configured three_columns_no_rows
      initial_world =
      (Raised e,
       {| api_key := resolved_key (env_with "sk-test" "" echo);
          trace := trace initial_world
                   ++ credential_events (env_with "sk-test" "" echo) |})
    ∧ exc_cls e = IndexError.
Proof.
  apply (C10_no_rows_three_columns_raises (env_with "sk-test" "" echo)
           configured three_columns_no_rows initial_world).
  - vm_compute. discriminate.
  - reflexivity.
  - vm_compute. lia.
  - reflexivity.
Defined.

(** ** More on [completion_with_backoff] *)

(** X1. Whatever the service does, [completion_with_backoff] calls it once,
    never sleeps, leaves the key alone, and never raises an [Exception]:
    what it raises, if anything, is an exception of another kind that the
    service raised. *)
Theorem completion_with_backoff_calls_once
    (env : Env) (kw : RequestParams) (w : World) :
  let out := completion_with_backoff env kw w in
  new_events w out.2 = [EvCreate kw]
  ∧ api_key out.2 = api_key w
  ∧ ∀ e, out.1 = Raised e →
      is_Exception e = false
      ∧ remote env (length (created (trace w))) kw = Raises e.
Proof.
  intros out. subst out. rewrite completion_with_backoff_run. simpl.
  split_and!.
  - by apply new_events_app.
  - done.
  - intros e H. apply answer_of_raised in H. tauto.
Qed.

(** ** More on [forward] *)

(** [forward], step by step. *)
Lemma forward_run (env : Env) (self : ChatGPT) (df : DataFrame) (w : World) :
  forward env self df w =
    let w1 := {| api_key := resolved_key env;
                 trace := trace w ++ credential_events env |} in
    if Nat.eqb (String.length (resolved_key env)) 0 then
      (Raised (PyExc AssertionError missing_key_message), w1)
    else
      match df with
      | [] => (Raised index_error, w1)
      | _ :: _ =>
          if Nat.ltb 2 (len_columns df) then
            match prompt_of df with
            | Some p =>
                (do results <- forward_loop env self (Some p) (rows_of df) [];
                 ret (response_frame results)) w1
            | None => (Raised index_error, w1)
            end
          else
            (do results <- forward_loop env self None (rows_of df) [];
             ret (response_frame results)) w1
      end.
Proof.
  unfold forward. unfold bind at 1. rewrite register_api_key_run.
  destruct (Nat.eqb (String.length (resolved_key env)) 0); [done|].
  cbv beta iota zeta. unfold bind at 1. rewrite read_columns_run.
  destruct df as [|c0 df'] eqn:Edf; [done|].
  rewrite <- Edf. cbv beta iota. unfold bind at 1. rewrite read_prompt_run.
  fold (rows_of df).
  destruct (Nat.ltb 2 (len_columns df)); [|done].
  by destruct (prompt_of df).
Qed.

(** [forward] looks at a frame through four things only: whether it has a
    column, its rows, whether it has a third column, and its prompt. *)
Lemma forward_ext (env : Env) (self : ChatGPT) (df df' : DataFrame) (w : World) :
  (df = [] ↔ df' = []) →
  rows_of df = rows_of df' →
  Nat.ltb 2 (len_columns df) = Nat.ltb 2 (len_columns df') →
  prompt_of df = prompt_of df' →
  forward env self df w = forward env self df' w.
Proof.
  intros Hnil Hrows Hlen Hprompt. rewrite !forward_run.
  rewrite Hrows, Hlen, Hprompt.
  destruct df as [|c df], df' as [|c' df']; try done.
  - destruct Hnil as [Hnil _]. by specialize (Hnil eq_refl).
  - destruct Hnil as [_ Hnil]. by specialize (Hnil eq_refl).
Qed.

Lemma slept_credential_events (env : Env) :
  slept (credential_events env) = [].
Proof. unfold credential_events. by destruct (Nat.eqb _ 0). Qed.

Lemma created_new_events (env : Env) (self : ChatGPT) (df : DataFrame)
    (w w' : World) (reqs : list RequestParams) :
  trace w' = trace w ++ credential_events env ++ (EvCreate <$> reqs) →
  created (new_events w w') = reqs.
Proof.
  intros Htr.
  by rewrite (new_events_app _ _ _ Htr), created_app,
    created_credential_events, created_creates.
Qed.

(** X2. No run of [forward] ever sleeps, and none sends more requests than
    the frame has rows: whether it returns or raises, a row is tried at most
    once. *)
Theorem forward_never_sleeps
    (env : Env) (self : ChatGPT) (df : DataFrame) (w : World) :
  let out := forward env self df w in
  slept (new_events w out.2) = []
  ∧ length (created (new_events w out.2)) ≤ length (column df 0).
Proof.
  intros out. subst out.
  destruct (forward_trace env self df w) as (reqs & Htr & _ & _ & Hlen & _).
  rewrite (created_new_events env self df _ _ _ Htr).
  rewrite (new_events_app _ _ _ Htr), slept_app, slept_credential_events,
    slept_creates.
  split; [done|].
  unfold rows_of in Hlen. rewrite length_zip_with in Hlen. lia.
Qed.

(** The answer to the request at position [i] of a run that returned. *)
Lemma forward_answer_at (env : Env) (self : ChatGPT) (df : DataFrame)
    (w w' : World) (out : DataFrame) (i : nat) (kw : RequestParams) :
  forward env self df w = (Ok out, w') →
  created (new_events w w') !! i = Some kw →
  ∃ a, column out 0 !! i = Some a
    ∧ answer_of (remote env (length (created (trace w)) + i) kw) = Ok a.
Proof.
  intros Hrun Hkw.
  apply forward_returns in Hrun
    as (_ & _ & results & reqs & -> & Htr & _ & Hreqs & Hans).
  rewrite (created_new_events env self df _ _ _ Htr) in Hkw.
  destruct (lookup_lt_is_Some_2 (rows_of df) i) as [row Hrow].
  { rewrite <- Hreqs. by eapply lookup_lt_Some. }
  destruct (Hans i row Hrow) as (kw' & a & Hkw' & _ & Ha & Hanswer).
  rewrite Hkw in Hkw'. injection Hkw' as <-.
  exists a. by split.
Qed.

(** X3. When the call made for row [i] returns a response, the row's
    response is the content of the first choice; further choices are not
    looked at. *)
Theorem forward_first_choice
    (env : Env) (self : ChatGPT) (df : DataFrame) (w w' : World)
    (out : DataFrame) (i : nat) (kw : RequestParams)
    (c : Choice) (cs : list Choice) :
  forward env self df w = (Ok out, w') →
  created (new_events w w') !! i = Some kw →
  remote env (length (created (trace w)) + i) kw =
    Returns {| choices := c :: cs |} →
  column out 0 !! i = Some (content (message c)).
Proof.
  intros Hrun Hkw Hrem.
  destruct (forward_answer_at _ _ _ _ _ _ _ _ Hrun Hkw) as (a & Ha & Hans).
  rewrite Hrem in Hans. simpl in Hans. by injection Hans as <-.
Qed.

Lemma forward_first_choice_witness :
  column [("response", ["first"; "first"])] 0 !! 1 =
    Some (content
            (message
               {| message := {| role := "assistant"; content := "first" |} |})).
Proof.
  apply (forward_first_choice (env_with "sk-test" "" two_choices) configured
           two_columns initial_world
           (forward (env_with "sk-test" "" two_choices) configured two_columns
              initial_world).2
           [("response", ["first"; "first"])] 1
           (request_params "gpt-3.5-turbo" (PyInt 0) None
              ("translate", "bonjour"))
           {| message := {| role := "assistant"; content := "first" |} |}
           [ {| message := {| role := "assistant"; content := "second" |} |} ]).
  - reflexivity.
  - reflexivity.
  - reflexivity.
Defined.

(** X4. When the call made for row [i] returns a response without any
    choice, reading the first choice raises an [IndexError] that is caught
    like any other: the row's response is its text. *)
Theorem forward_empty_choices
    (env : Env) (self : ChatGPT) (df : DataFrame) (w w' : World)
    (out : DataFrame) (i : nat) (kw : RequestParams) :
  forward env self df w = (Ok out, w') →
  created (new_events w w') !! i = Some kw →
  remote env (length (created (trace w)) + i) kw =
    Returns {| choices := [] |} →
  column out 0 !! i = Some "list index out of range".
Proof.
  intros Hrun Hkw Hrem.
  destruct (forward_answer_at _ _ _ _ _ _ _ _ Hrun Hkw) as (a & Ha & Hans).
  rewrite Hrem in Hans. simpl in Hans. by injection Hans as <-.
Qed.

Lemma forward_empty_choices_witness :
  column [("response", ["list index out of range"])] 0 !! 0 =
    Some "list index out of range".
Proof.
  apply (forward_empty_choices (env_with "sk-test" "" no_choices) configured
           one_column initial_world
           (forward (env_with "sk-test" "" no_choices) configured one_column
              initial_world).2
           [("response", ["list index out of range"])] 0
           (request_params "gpt-3.5-turbo" (PyInt 0) None
              ("summarize", "summarize"))).
  - reflexivity.
  - reflexivity.
  - reflexivity.
Defined.

(** The loop stops at the first row whose call raises something that is not
    an [Exception]. *)
Lemma forward_loop_first_fatal (env : Env) (self : ChatGPT)
    (prompt : option string) (m : string) (t : py_number)
    (rows : list (string * string)) :
  self_model self = Some m →
  self_temperature self = Some t →
  ∀ (k : nat) (row : string * string) (e : py_exc)
    (results : list string) (w : World),
    rows !! k = Some row →
    remote env (length (created (trace w)) + k)
      (request_params m t prompt row) = Raises e →
    is_Exception e = false →
    (∀ i row_i e_i, i < k → rows !! i = Some row_i →
       remote env (length (created (trace w)) + i)
         (request_params m t prompt row_i) = Raises e_i →
       is_Exception e_i = true) →
    forward_loop env self prompt rows results w =
      (Raised e,
       {| api_key := api_key w;
          trace := trace w ++
            (EvCreate <$> (request_params m t prompt <$> take (S k) rows)) |}).
Proof.
  intros Hm Ht.
  induction rows as [|row0 rows IH]; intros k row e results w Hrow Hrem He Hbefore.
  { done. }
  rewrite forward_loop_cons.
  rewrite (build_params_configured self m t prompt _ _ w Hm Ht).
  rewrite completion_with_backoff_run.
  replace (row0.1, row0.2) with row0 by by destruct row0.
  destruct k as [|k].
  - injection Hrow as <-. rewrite Nat.add_0_r in Hrem. rewrite Hrem. simpl.
    by rewrite He.
  - simpl in Hrow.
    destruct (answer_of (remote env (length (created (trace w)))
                           (request_params m t prompt row0)))
      as [a|e0] eqn:Ha.
    + rewrite (IH k row e).
      * simpl. by rewrite <- app_assoc.
      * done.
      * simpl. rewrite created_app, length_app. simpl.
        by replace (length (created (trace w)) + 1 + k)
          with (length (created (trace w)) + S k) by lia.
      * done.
      * intros i row_i e_i Hi Hrow_i Hrem_i.
        apply (Hbefore (S i) row_i e_i); [lia | done |].
        simpl in Hrem_i. rewrite created_app, length_app in Hrem_i.
        simpl in Hrem_i.
        by replace (length (created (trace w)) + S i)
          with (length (created (trace w)) + 1 + i) by lia.
    + apply answer_of_raised in Ha as [Hraise Hne].
      rewrite <- (Nat.add_0_r (length (created (trace w)))) in Hraise.
      apply (Hbefore 0 row0 e0) in Hraise; [congruence | lia | done].
Qed.

(** X5. An exception of the service that is not an [Exception] (an
    interrupt) is not turned into a response.  If row [k] is the first row
    whose call raises one, [forward] raises it, having sent the requests of
    rows 0 to [k] and no other: the rows after [k] are not processed and no
    frame is returned. *)
Theorem forward_propagates_non_exception
    (env : Env) (self : ChatGPT) (df : DataFrame) (w : World)
    (m : string) (t : py_number)
    (k : nat) (row : string * string) (e : py_exc) :
  self_model self = Some m →
  self_temperature self = Some t →
  resolved_key env ≠ "" →
  well_formed df = true →
  rows_of df !! k = Some row →
  remote env (length (created (trace w)) + k)
    (request_params m t (prompt_of df) row) = Raises e →
  is_Exception e = false →
  (∀ i row_i e_i, i < k → rows_of df !! i = Some row_i →
     remote env (length (created (trace w)) + i)
       (request_params m t (prompt_of df) row_i) = Raises e_i →
     is_Exception e_i = true) →
  (forward env self df w).1 = Raised e
  ∧ created (new_events w (forward env self df w).2) =
      request_params m t (prompt_of df) <$> take (S k) (rows_of df).
Proof.
  intros Hm Ht Hkey Hwf Hrow Hrem He Hbefore.
  assert (0 < len_rows df) as Hrows.
  { rewrite <- (rows_of_length df Hwf).
    apply lookup_lt_Some in Hrow. lia. }
  assert (df ≠ []) as Hdf by (intros ->; simpl in Hrows; lia).
  set (w1 := {| api_key := resolved_key env;
                trace := trace w ++ credential_events env |}).
  assert (forward_loop env self (prompt_of df) (rows_of df) [] w1 =
            (Raised e,
             {| api_key := api_key w1;
                trace := trace w1 ++
                  (EvCreate <$> (request_params m t (prompt_of df) <$>
                                   take (S k) (rows_of df))) |})) as Hloop.
  { apply (forward_loop_first_fatal env self (prompt_of df) m t _ Hm Ht k row).
    - done.
    - simpl. by rewrite created_app, created_credential_events, app_nil_r.
    - done.
    - intros i row_i e_i Hi Hrow_i.
      simpl. rewrite created_app, created_credential_events, app_nil_r.
      by apply Hbefore. }
  destruct (forward_cases env self df w) as
    [(Hk & _) | [(_ & Hbad & _) | (_ & _ & _ & ->)]].
  - done.
  - destruct Hbad as [?|[H2 Hnone]]; [done|].
    rewrite prompt_of_three_columns in Hnone by done.
    destruct (column_first_row df 2 Hwf H2 Hrows) as [p Hp]. congruence.
  - fold w1. unfold bind. rewrite Hloop. simpl. split; [done|].
    apply (created_new_events env self df). simpl. by rewrite <- app_assoc.
Qed.

Lemma forward_propagates_non_exception_witness :
  let env := env_with "sk-test" "" interrupted in
  (forward env configured three_columns initial_world).1
    = Raised keyboard_interrupt
  ∧ created (new_events initial_world
               (forward env configured three_columns initial_world).2) =
      request_params "gpt-3.5-turbo" (PyInt 0) (prompt_of three_columns) <$>
        take 2 (rows_of three_columns).
Proof.
  intros env.
  apply (forward_propagates_non_exception env configured three_columns
           initial_world "gpt-3.5-turbo" (PyInt 0) 1
           ("translate", "bonjour") keyboard_interrupt).
  - reflexivity.
  - reflexivity.
  - vm_compute. discriminate.
  - reflexivity.
  - reflexivity.
  - reflexivity.
  - reflexivity.
  - intros [|i] row_i e_i Hi Hrow_i Hrem; [|lia].
    vm_compute in Hrem. discriminate.
Defined.

(** ** What [forward] reads of a frame *)

Lemma column_values (df : DataFrame) (j : nat) :
  column df j = default [] (df.*2 !! j).
Proof.
  unfold column. revert j.
  induction df as [|c df IH]; intros [|j]; simpl; done.
Qed.

Lemma len_columns_values (df : DataFrame) :
  len_columns df = length df.*2.
Proof. unfold len_columns. by rewrite length_fmap. Qed.

(** X6. Columns are read by position: two frames with the same values in
    the same order, whatever their labels (repeated ones included), make
    [forward] do exactly the same. *)
Theorem forward_ignores_labels
    (env : Env) (self : ChatGPT) (df df' : DataFrame) (w : World) :
  df.*2 = df'.*2 →
  forward env self df w = forward env self df' w.
Proof.
  intros Hval.
  assert (len_columns df = len_columns df') as Hlen
    by by rewrite !len_columns_values, Hval.
  assert (∀ j, column df j = column df' j) as Hcol
    by (intros j; by rewrite !column_values, Hval).
  apply forward_ext.
  - destruct df, df'; done.
  - unfold rows_of, content_index. by rewrite Hlen, !Hcol.
  - by rewrite Hlen.
  - unfold prompt_of. by rewrite Hlen, Hcol.
Qed.

Lemma forward_ignores_labels_witness :
  forward (env_with "sk-test" "" echo) configured three_columns initial_world
  = forward (env_with "sk-test" "" echo) configured three_columns_relabelled
      initial_world.
Proof.
  apply (forward_ignores_labels (env_with "sk-test" "" echo) configured
           three_columns three_columns_relabelled initial_world).
  reflexivity.
Defined.

Lemma column_take (df : DataFrame) (n j : nat) :
  j < n → column (take n df) j = column df j.
Proof.
  intros Hj. rewrite !column_values, fmap_take.
  by rewrite lookup_take_lt.
Qed.

(** X7. Columns after the third are never read: [forward] does on a frame
    what it does on its first three columns. *)
Theorem forward_ignores_columns_after_third
    (env : Env) (self : ChatGPT) (df : DataFrame) (w : World) :
  forward env self df w = forward env self (take 3 df) w.
Proof.
  assert (Nat.ltb 2 (len_columns (take 3 df)) = Nat.ltb 2 (len_columns df))
    as H2.
  { unfold len_columns. rewrite length_take.
    destruct (Nat.ltb_spec 2 (length df));
      [apply Nat.ltb_lt | apply Nat.ltb_ge]; lia. }
  assert (Nat.ltb 1 (len_columns (take 3 df)) = Nat.ltb 1 (len_columns df))
    as H1.
  { unfold len_columns. rewrite length_take.
    destruct (Nat.ltb_spec 1 (length df));
      [apply Nat.ltb_lt | apply Nat.ltb_ge]; lia. }
  symmetry. apply forward_ext.
  - by destruct df.
  - unfold rows_of, content_index. rewrite H1.
    rewrite !column_take; [done | | lia].
    destruct (Nat.ltb 1 (len_columns df)); lia.
  - done.
  - unfold prompt_of. rewrite H2. by rewrite column_take by lia.
Qed.

(** X8. Of the third column only row 0 is read: changing the prompts of the
    other rows changes nothing of what [forward] does. *)
Theorem forward_uses_first_prompt_only
    (env : Env) (self : ChatGPT) (c0 c1 : string * Series) (label : string)
    (p : string) (others others' : Series) (more : DataFrame) (w : World) :
  forward env self (c0 :: c1 :: (label, p :: others) :: more) w =
  forward env self (c0 :: c1 :: (label, p :: others') :: more) w.
Proof. by apply forward_ext. Qed.

(** X9. On a frame without any column, and with a key, [forward] raises an
    [IndexError] when it asks for the first label; nothing is sent. *)
Theorem forward_no_columns
    (env : Env) (self : ChatGPT) (w : World) :
  resolved_key env ≠ "" →
  ∃ e,
    (forward env self [] w).1 = Raised e
    ∧ exc_cls e = IndexError
    ∧ api_key (forward env self [] w).2 = resolved_key env
    ∧ created (new_events w (forward env self [] w).2) = [].
Proof.
  intros Hkey. exists index_error. rewrite forward_run. simpl.
  destruct (Nat.eqb (String.length (resolved_key env)) 0) eqn:E.
  { by apply length_zero_empty in E. }
  simpl. split_and!; try done.
  apply (created_new_events env self [] _ _ []). simpl.
  by rewrite app_nil_r.
Qed.

Lemma forward_no_columns_witness :
  ∃ e,
    (forward (env_with "sk-test" "" echo) configured [] initial_world).1
      = Raised e
    ∧ exc_cls e = IndexError
    ∧ api_key (forward (env_with "sk-test" "" echo) configured []
                 initial_world).2
      = resolved_key (env_with "sk-test" "" echo)
    ∧ created (new_events initial_world
                 (forward (env_with "sk-test" "" echo) configured []
                    initial_world).2) = [].
Proof.
  apply (forward_no_columns (env_with "sk-test" "" echo) configured
           initial_world).
  vm_compute. discriminate.
Defined.

(** X10. On a frame with one or two columns and no row, and with a key,
    [forward] returns the [response] column without any row and sends
    nothing, whether [setup] has run or not. *)
Theorem forward_empty_batch
    (env : Env) (self : ChatGPT) (df : DataFrame) (w : World) :
  resolved_key env ≠ "" →
  well_formed df = true →
  1 ≤ len_columns df ≤ 2 →
  len_rows df = 0 →
  (forward env self df w).1 = Ok [("response", [])]
  ∧ created (new_events w (forward env self df w).2) = [].
Proof.
  intros Hkey Hwf [H1 H2] H0.
  assert (df ≠ []) as Hdf by (intros ->; simpl in H1; lia).
  rewrite (forward_no_rows_up_to_two_columns env self df w Hkey Hwf Hdf H2 H0).
  split; [done|].
  apply (created_new_events env self df _ _ []). simpl.
  by rewrite app_nil_r.
Qed.

Lemma forward_empty_batch_witness :
  (forward (env_with "" "sk-test" echo) unconfigured two_columns_no_rows
     initial_world).1 = Ok [("response", [])]
  ∧ created (new_events initial_world
               (forward (env_with "" "sk-test" echo) unconfigured
                  two_columns_no_rows initial_world).2) = [].
Proof.
  apply (forward_empty_batch (env_with "" "sk-test" echo) unconfigured
           two_columns_no_rows initial_world).
  - vm_compute. discriminate.
  - reflexivity.
  - vm_compute. lia.
  - reflexivity.
Defined.

(** ** Sequences of [setup] calls *)

Lemma setup_state (self : ChatGPT) (model_arg : option string)
    (temperature_arg : option py_number) :
  (setup self model_arg temperature_arg).2 =
    if model_in_valid (default default_model model_arg)
    then {| self_model := Some (default default_model model_arg);
            self_temperature :=
              Some (default default_temperature temperature_arg) |}
    else self.
Proof. unfold setup. by destruct (model_in_valid _). Qed.

Lemma setup_well_configured (self : ChatGPT) (model_arg : option string)
    (temperature_arg : option py_number) :
  well_configured self →
  well_configured (setup self model_arg temperature_arg).2.
Proof.
  intros Hwc. rewrite setup_state.
  destruct (model_in_valid _) eqn:E; [|done].
  split; simpl; [done|].
  intros m [= <-]. by apply model_in_valid_supported.
Qed.

Lemma setups_app (self : ChatGPT)
    (calls1 calls2 : list (option string * option py_number)) :
  setups self (calls1 ++ calls2) = setups (setups self calls1) calls2.
Proof.
  revert self. induction calls1 as [|[m t] calls1 IH]; intros self; [done|].
  simpl. apply IH.
Qed.

(** X11. Starting from a fresh object, whatever calls of [setup] are made
    and whichever of them raise, the object never holds an unsupported
    model, and never holds a model without a temperature or a temperature
    without a model. *)
Theorem setups_well_configured
    (calls : list (option string * option py_number)) :
  well_configured (setups unconfigured calls).
Proof.
  assert (∀ self, well_configured self → well_configured (setups self calls))
    as H.
  { induction calls as [|[m t] calls IH]; intros self Hwc; [done|].
    simpl. by apply IH, setup_well_configured. }
  apply H. split; [done|]. intros m. discriminate.
Qed.

(** X12. The configuration is the one of the last call of [setup] that
    named a supported model: the calls before it, and the rejected calls
    after it, leave no mark. *)
Theorem setups_last_supported_wins
    (self : ChatGPT) (calls1 calls2 : list (option string * option py_number))
    (model_arg : option string) (temperature_arg : option py_number) :
  supported (default "gpt-3.5-turbo" model_arg) →
  Forall (λ call, ¬ supported (default "gpt-3.5-turbo" call.1)) calls2 →
  setups self (calls1 ++ (model_arg, temperature_arg) :: calls2) =
    {| self_model := Some (default "gpt-3.5-turbo" model_arg);
       self_temperature := Some (default (PyInt 0) temperature_arg) |}.
Proof.
  intros Hsup Hrej. rewrite setups_app. simpl. rewrite setup_state.
  apply model_in_valid_supported in Hsup.
  unfold default_model. rewrite Hsup.
  induction Hrej as [|[m t] calls2 Hm _ IH]; [done|].
  simpl. rewrite setup_state.
  apply model_in_valid_unsupported in Hm. simpl in Hm.
  unfold default_model. by rewrite Hm.
Qed.

Lemma setups_last_supported_wins_witness :
  setups unconfigured
    ([(Some "gpt-4", Some (PyInt 1)); (Some "gpt-5", None)] ++
     (Some "gpt-4-32k", None) :: [(Some "GPT-4", Some (PyInt 1))]) =
    {| self_model := Some "gpt-4-32k"; self_temperature := Some (PyInt 0) |}.
Proof.
  apply (setups_last_supported_wins unconfigured
           [(Some "gpt-4", Some (PyInt 1)); (Some "gpt-5", None)]
           [(Some "GPT-4", Some (PyInt 1))] (Some "gpt-4-32k") None).
  - apply model_in_valid_supported. reflexivity.
  - constructor; [|constructor].
    apply model_in_valid_unsupported. reflexivity.
Defined.

(** X13. Every request that [forward] sends for an object configured
    through [setup] names one of the six supported models. *)
Theorem forward_sends_supported_model
    (env : Env) (calls : list (option string * option py_number))
    (df : DataFrame) (w : World) (i : nat) (kw : RequestParams) :
  created (new_events w (forward env (setups unconfigured calls) df w).2) !! i
    = Some kw →
  supported (model kw).
Proof.
  intros H.
  apply forward_request_at in H as (_ & row & _ & Hm & _).
  destruct (setups_well_configured calls) as [_ Hsup]. by apply Hsup.
Qed.

Lemma forward_sends_supported_model_witness :
  supported
    (model (request_params "gpt-4" (PyInt 0) None ("summarize", "summarize"))).
Proof.
  apply (forward_sends_supported_model (env_with "sk-test" "" echo)
           [(Some "gpt-4", None); (Some "gpt-5", None)]
           one_column initial_world 0).
  reflexivity.
Defined.

(** ** Past the checks *)

(** X14. [forward] is modelled from the point where [openai] has been
    imported and the configuration store has answered with a string.  From
    there, with a configured adapter, a key that is not empty and a frame
    that can be read (a first column and, with a third column, a row 0),
    [forward] raises no [Exception]: it returns, or it raises an exception
    of another kind that the service raised.  An [Exception] of the service
    never comes out. *)
Theorem forward_past_checks_raises_no_exception
    (env : Env) (self : ChatGPT) (df : DataFrame) (w : World)
    (m : string) (t : py_number) :
  self_model self = Some m →
  self_temperature self = Some t →
  resolved_key env ≠ "" →
  df ≠ [] →
  (2 < len_columns df → is_Some (column df 2 !! 0)) →
  (∃ out, (forward env self df w).1 = Ok out)
  ∨ (∃ e n kw,
       (forward env self df w).1 = Raised e
       ∧ is_Exception e = false
       ∧ remote env n kw = Raises e).
Proof.
  intros Hm Ht Hkey Hdf Hp.
  destruct (forward_cases env self df w) as
    [(Hk & _) | [(_ & Hbad & _) | (_ & _ & _ & ->)]].
  - done.
  - destruct Hbad as [?|[H2 Hnone]]; [done|].
    rewrite prompt_of_three_columns in Hnone by done.
    destruct (Hp H2) as [p Hsome]. congruence.
  - unfold bind, ret.
    destruct (forward_loop env self (prompt_of df) (rows_of df) [] _)
      as [[res|e] w2] eqn:Hloop; simpl.
    + left. by eexists.
    + right.
      destruct (forward_loop_configured env self (prompt_of df) m t Hm Ht
                  _ _ _ _ _ Hloop) as (_ & _ & _ & _ & _ & Herr).
      destruct (Herr e eq_refl) as (Hne & n & kw & Hrem).
      by exists e, n, kw.
Qed.

Lemma forward_past_checks_raises_no_exception_witness :
  let env := env_with "sk-test" "" interrupted in
  (∃ out, (forward env configured three_columns initial_world).1 = Ok out)
  ∨ (∃ e n kw,
       (forward env configured three_columns initial_world).1 = Raised e
       ∧ is_Exception e = false
       ∧ remote env n kw = Raises e).
Proof.
  intros env.
  apply (forward_past_checks_raises_no_exception env configured three_columns
           initial_world "gpt-3.5-turbo" (PyInt 0)).
  - reflexivity.
  - reflexivity.
  - vm_compute. discriminate.
  - discriminate.
  - intros _. by eexists.
Defined.
